(** * bukaninara.py: the upload / question-answering script

    A shallow embedding of [src/bukaninara.py].  Python strings are
    sequences of Unicode code points, dictionaries are finite maps, and the
    calls to the hosted services (OpenAI, Pinecone) and to the Streamlit
    page are effects threaded through an explicit state: the state of the
    outside world, the log of what the script did, the session state and
    the uploaded file object. *)

From Stdlib Require Import ZArith NArith List String Ascii Lia.
From Stdlib Require Import DecimalString DecimalNat.
From stdpp Require Import base gmap list strings.

Set Default Proof Using "Type".

(** ** Python strings *)

(** A [str] is a list of code points. *)
Abbreviation pystr := (list N).

(** A literal of the source, written with ASCII characters only. *)
Definition py (s : string) : pystr :=
  map N_of_ascii (list_ascii_of_string s).

Arguments py _ : simpl never.

(** [str(n)] for a non-negative integer. *)
Definition str_nat (n : nat) : pystr :=
  py (NilEmpty.string_of_uint (Nat.to_uint n)).

(** [str.isspace] on one code point, the table [str.strip()] uses. *)
Definition isspace (c : N) : bool :=
  ((0x09 <=? c) && (c <=? 0x0D) || (0x1C <=? c) && (c <=? 0x20)
   || (c =? 0x85) || (c =? 0xA0) || (c =? 0x1680)
   || (0x2000 <=? c) && (c <=? 0x200A)
   || (c =? 0x2028) || (c =? 0x2029) || (c =? 0x202F) || (c =? 0x205F)
   || (c =? 0x3000))%N.

Fixpoint lstrip (s : pystr) : pystr :=
  match s with
  | [] => []
  | c :: r => if isspace c then lstrip r else s
  end.

Definition rstrip (s : pystr) : pystr := rev (lstrip (rev s)).

(** [s.strip()] *)
Definition strip (s : pystr) : pystr := rstrip (lstrip s).

(** [s.split(sep)] for a one-character separator: every occurrence cuts,
    so the result is never empty and [''.split(sep) = ['']]. *)
Fixpoint split (sep : N) (s : pystr) : list pystr :=
  match s with
  | [] => [[]]
  | c :: r =>
      if (c =? sep)%N then [] :: split sep r
      else match split sep r with
           | l :: ls => (c :: l) :: ls
           | [] => [[c]]
           end
  end.

(** [sep.join(parts)] *)
Fixpoint join (sep : pystr) (parts : list pystr) : pystr :=
  match parts with
  | [] => []
  | [p] => p
  | p :: ps => p ++ sep ++ join sep ps
  end.

Definition NL : N := 10%N.

(** Truth value of a string and of a list. *)
Definition truthy {A} (l : list A) : bool :=
  match l with [] => false | _ => true end.

(** ** Python values held in metadata *)

(** The values this script stores in and reads from a metadata dictionary:
    integers ([line]) and strings ([source], [text]). *)
Inductive pyval :=
| PInt (z : Z)
| PStr (s : pystr).

#[global] Instance pyval_eq_dec : EqDecision pyval.
Proof. solve_decision. Defined.

Abbreviation metadata := (gmap pystr pyval).

(** ** The splitting policy of the upload handler (lines 159-160) *)

(** [[line.strip() for line in file_content.split('\n') if line.strip()]] *)
Definition texts (file_content : pystr) : list pystr :=
  map strip (filter (fun line => truthy (strip line) = true) (split NL file_content)).

(** [[{"source": name, "line": i} for i, _ in enumerate(texts)]] *)
Definition metadata_list (name : pystr) (texts : list pystr) : list metadata :=
  imap (fun i _ => <[py "source" := PStr name]> (<[py "line" := PInt (Z.of_nat i)]> ∅)) texts.


(** ** Exceptions, floats, records of the client libraries *)

(** The exceptions the script can meet; [str(e)] is the carried message. *)
Inductive exn :=
| ServiceError (msg : pystr)
| AttributeError (msg : pystr)
| TypeError (msg : pystr)
| IndexError (msg : pystr)
| UnicodeDecodeError (msg : pystr).

Definition str_exn (e : exn) : pystr :=
  match e with
  | ServiceError m | AttributeError m | TypeError m | IndexError m
  | UnicodeDecodeError m => m
  end.

(** A Python float is its IEEE-754 binary64 bit pattern.  The script does
    no arithmetic on floats: it stores embeddings and formats a clock
    reading. *)
Record float := Float { float_bits : Z }.

(** One entry of [vectors_to_upsert]. *)
Record vector_record := {
  v_id : pystr;
  v_values : list float;
  v_metadata : metadata
}.

(** One element of [res.matches]. *)
Record Match := {
  m_id : pystr;
  m_score : float;
  m_metadata : metadata
}.

(** A chat message [{"role": ..., "content": ...}]. *)
Record message := {
  role : pystr;
  content : pystr
}.

(** A client object ([Pinecone(api_key=...)], [OpenAI(api_key=...)]). *)
Record client := Client { client_key : pystr }.

(** The uploaded file: its name and what [read().decode("utf-8")] gives on
    the whole content (the text, or the decoding error). *)
Record file := {
  f_name : pystr;
  f_decoded : exn + pystr
}.

(** What the script does that is visible outside: the messages it puts on
    the page and the calls it makes to the client libraries. *)
Inductive event :=
| st_error (m : pystr)
| st_warning (m : pystr)
| st_info (m : pystr)
| st_success (m : pystr)
| st_markdown (m : pystr)
| st_chat_message (r : pystr)
| time_sleep (secs : Z)
| time_time
| embeddings_create (input model : pystr)
| list_indexes
| create_index (name : pystr) (dimension : Z) (metric cloud region : pystr)
| describe_index (name : pystr)
| Index_handle (name : pystr)
| index_upsert (name : pystr) (vectors : list vector_record)
| index_query (name : pystr) (vector : list float) (top_k : Z)
| OpenAI_new (api_key : pystr)
| chat_completions_create (model : pystr) (messages : list message)
    (temperature : float) (max_tokens : Z).

(** The outside world: a state [W] and, for every call of a client
    library, its answer (a value or a raised exception) and the next
    state.  [repr_float] is Python's formatting of a float. *)
Record Env (W : Type) := {
  do_embeddings_create : pystr -> W -> (exn + list float) * W;
  do_list_indexes : W -> (exn + list pystr) * W;
  do_create_index : pystr -> W -> (exn + unit) * W;
  do_describe_index : pystr -> W -> (exn + bool) * W;
  do_Index : pystr -> W -> (exn + unit) * W;
  do_upsert : pystr -> list vector_record -> W -> (exn + unit) * W;
  do_query : pystr -> list float -> Z -> W -> (exn + list Match) * W;
  do_OpenAI : pystr -> W -> (exn + unit) * W;
  do_chat_completions : list message -> W -> (exn + pystr) * W;
  do_time : W -> float * W;
  do_sleep : Z -> W -> W;
  repr_float : float -> pystr
}.

Arguments do_embeddings_create {W}.
Arguments do_list_indexes {W}.
Arguments do_create_index {W}.
Arguments do_describe_index {W}.
Arguments do_Index {W}.
Arguments do_upsert {W}.
Arguments do_query {W}.
Arguments do_OpenAI {W}.
Arguments do_chat_completions {W}.
Arguments do_time {W}.
Arguments do_sleep {W}.
Arguments repr_float {W}.

(** [st.session_state]: each key is present or not. *)
Record session := {
  messages : option (list message);
  text_cache : option (gmap pystr pystr)
}.

(** The state the script runs in. [file_read] says that the uploaded
    file object has been read to its end. *)
Record state (W : Type) := {
  world : W;
  log : list event;
  session_state : session;
  file_read : bool
}.

Arguments world {W}.
Arguments log {W}.
Arguments session_state {W}.
Arguments file_read {W}.
Arguments Build_state {W}.

(** Outcome of a computation: a value, a raised exception, or a loop that
    did not end within the fuel given to the model. *)
Inductive result (A : Type) :=
| Val (a : A)
| Raise (e : exn)
| OutOfFuel.

Arguments Val {A}.
Arguments Raise {A}.
Arguments OutOfFuel {A}.

(** ** The monad of the script: state, exceptions, fuel *)

Definition M (W A : Type) : Type := state W -> result A * state W.

Definition ret {W A} (a : A) : M W A := fun s => (Val a, s).

Definition bind {W A B} (c : M W A) (k : A -> M W B) : M W B :=
  fun s =>
    match c s with
    | (Val a, s') => k a s'
    | (Raise e, s') => (Raise e, s')
    | (OutOfFuel, s') => (OutOfFuel, s')
    end.

Definition raise {W A} (e : exn) : M W A := fun s => (Raise e, s).

Definition out_of_fuel {W A} : M W A := fun s => (OutOfFuel, s).

(** [try: body except Exception as e: handler(e)] *)
Definition try_except {W A} (body : M W A) (handler : exn -> M W A) : M W A :=
  fun s =>
    match body s with
    | (Raise e, s') => handler e s'
    | r => r
    end.

Definition set_world {W} (w : W) (s : state W) : state W :=
  Build_state w (log s) (session_state s) (file_read s).

Definition add_log {W} (ev : event) (s : state W) : state W :=
  Build_state (world s) (log s ++ [ev]) (session_state s) (file_read s).

Definition set_session {W} (ss : session) (s : state W) : state W :=
  Build_state (world s) (log s) ss (file_read s).

Definition set_file_read {W} (b : bool) (s : state W) : state W :=
  Build_state (world s) (log s) (session_state s) b.

(** A page element shown to the user. *)
Definition emit {W} (ev : event) : M W unit := fun s => (Val tt, add_log ev s).

(** A call of a client library that may raise. *)
Definition call {W A} (ev : event) (op : W -> (exn + A) * W) : M W A :=
  fun s =>
    let (r, w) := op (world s) in
    (match r with inl e => Raise e | inr a => Val a end,
     set_world w (add_log ev s)).

(** A call that always returns. *)
Definition call_total {W A} (ev : event) (op : W -> A * W) : M W A :=
  fun s => let (a, w) := op (world s) in (Val a, set_world w (add_log ev s)).

Definition get_session {W} : M W session := fun s => (Val (session_state s), s).

Definition put_session {W} (ss : session) : M W unit :=
  fun s => (Val tt, set_session ss s).

Declare Scope script_scope.
Delimit Scope script_scope with script.
Notation "x <- c ;; k" := (bind c (fun x => k))
  (at level 20, c at level 99, k at level 200, right associativity) : script_scope.
Notation "c >> k" := (bind c (fun _ => k))
  (at level 100, k at level 200, right associativity) : script_scope.
Open Scope script_scope.

(** [l[z]] with Python's negative indices. *)
Definition py_index {W A} (l : list A) (z : Z) : M W A :=
  let n := Z.of_nat (length l) in
  let i := if (z <? 0)%Z then (z + n)%Z else z in
  if ((0 <=? i) && (i <? n))%Z then
    match l !! Z.to_nat i with
    | Some a => ret a
    | None => raise (IndexError (py "list index out of range"))
    end
  else raise (IndexError (py "list index out of range")).

(** The three configuration inputs of the sidebar. *)
Record config := {
  openai_api_key : pystr;
  pinecone_api_key : pystr;
  pinecone_environment : pystr
}.

Section Script.
Context {W : Type} (env : Env W).

(** *** [get_embedding] (lines 32-42) *)
Definition get_embedding (text : pystr) (cl : option client) : M W (option (list float)) :=
  try_except
    (match cl with
     | None => raise (AttributeError (py "'NoneType' object has no attribute 'embeddings'"))
     | Some _ =>
         v <- call (embeddings_create text (py "text-embedding-ada-002"))
                   (do_embeddings_create env text) ;;
         ret (Some v)
     end)
    (fun e => emit (st_error (py "Gagal mendapatkan embedding: " ++ str_exn e)) >> ret None).

(** [if embedding:] holds for a non-empty list only. *)
Definition embedding_ok (embedding : option (list float)) : bool :=
  match embedding with
  | Some v => truthy v
  | None => false
  end.

(** *** [upsert_to_pinecone] (lines 44-82) *)

(** The readiness poll of lines 59-60. *)
Fixpoint wait_ready (fuel : nat) (index_name : pystr) : M W unit :=
  match fuel with
  | O => out_of_fuel
  | S fuel' =>
      ready <- call (describe_index index_name) (do_describe_index env index_name) ;;
      if ready : bool then ret tt
      else call_total (time_sleep 1) (fun w => (tt, do_sleep env 1 w)) >>
           wait_ready fuel' index_name
  end.

(** The loop of lines 65-72, from chunk [i] on. *)
Fixpoint embed_loop (i : nat) (texts : list pystr) (metadata_list : list metadata)
    (embedding_client : option client) (vectors_to_upsert : list vector_record)
    : M W (list vector_record) :=
  match texts with
  | [] => ret vectors_to_upsert
  | text :: rest =>
      embedding <- get_embedding text embedding_client ;;
      vectors <-
        (if embedding_ok embedding then
           t <- call_total time_time (do_time env) ;;
           md <- py_index metadata_list (Z.of_nat i) ;;
           ret (vectors_to_upsert ++
                [{| v_id := py "doc-" ++ repr_float env t ++ py "-" ++ str_nat i;
                    v_values := default [] embedding;
                    v_metadata := md |}])
         else ret vectors_to_upsert) ;;
      embed_loop (S i) rest metadata_list embedding_client vectors
  end.

(** Lines 50-62: create the index when it is missing, wait for it, and
    take a handle on it. *)
Definition provision_index (fuel : nat) (index_name : pystr) : M W unit :=
  names <- call list_indexes (do_list_indexes env) ;;
  (if bool_decide (index_name ∈ names) then ret tt
   else
     emit (st_info (py "Membuat indeks Pinecone '" ++ index_name ++ py "'...")) >>
     call (create_index index_name 1536 (py "cosine") (py "aws") (py "us-west-2"))
          (do_create_index env index_name) >>
     wait_ready fuel index_name) >>
  call (Index_handle index_name) (do_Index env index_name).

(** Lines 74-82: the single batch call and the value returned. *)
Definition upsert_batch (index_name : pystr) (vectors_to_upsert : list vector_record)
    : M W bool :=
  if truthy vectors_to_upsert then
    try_except
      (call (index_upsert index_name vectors_to_upsert)
            (do_upsert env index_name vectors_to_upsert) >>
       emit (st_success (py "Berhasil mengunggah " ++ str_nat (length vectors_to_upsert)
                         ++ py " vektor ke Pinecone indeks '" ++ index_name ++ py "'.")) >>
       ret true)
      (fun e =>
         emit (st_error (py "Gagal mengunggah ke Pinecone: " ++ str_exn e)) >>
         ret false)
  else ret false.

Definition upsert_to_pinecone (fuel : nat) (index_name : pystr) (texts : list pystr)
    (metadata_list : list metadata) (pinecone_client embedding_client : option client)
    : M W bool :=
  match pinecone_client with
  | None =>
      emit (st_error (py "Pinecone belum diinisialisasi. Tidak dapat mengunggah.")) >>
      ret false
  | Some _ =>
      provision_index fuel index_name >>
      vectors_to_upsert <- embed_loop 0 texts metadata_list embedding_client [] ;;
      upsert_batch index_name vectors_to_upsert
  end.

(** *** [query_pinecone] (lines 84-103) *)
Definition query_pinecone (index_name query_text : pystr) (top_k : Z)
    (pinecone_client embedding_client : option client) : M W (list Match) :=
  match pinecone_client with
  | None =>
      emit (st_error (py "Pinecone belum diinisialisasi. Tidak dapat melakukan pencarian.")) >>
      ret []
  | Some _ =>
      names <- call list_indexes (do_list_indexes env) ;;
      if bool_decide (index_name ∈ names) then
        call (Index_handle index_name) (do_Index env index_name) >>
        query_embedding <- get_embedding query_text embedding_client ;;
        if embedding_ok query_embedding then
          try_except
            (call (index_query index_name (default [] query_embedding) top_k)
                  (do_query env index_name (default [] query_embedding) top_k))
            (fun e =>
               emit (st_error (py "Gagal melakukan query Pinecone: " ++ str_exn e)) >>
               ret [])
        else ret []
      else
        emit (st_warning (py "Indeks '" ++ index_name ++ py "' tidak ditemukan.")) >>
        ret []
  end.

(** *** [get_answer_from_openai] (lines 105-122) *)

(** The string returned when the completion call fails (line 122). *)
Definition apology : pystr :=
  py "Maaf, saya tidak bisa menjawab pertanyaan ini saat ini.".

Definition completion_messages (question context : pystr) : list message :=
  [ {| role := py "system";
       content := py "Anda adalah asisten AI yang cerdas. Jawab pertanyaan berdasarkan konteks yang diberikan." |};
    {| role := py "user";
       content := py "Konteks: " ++ context ++ [NL; NL] ++ py "Pertanyaan: " ++ question |} ].

(** [0.7] as a binary64. *)
Definition temperature : float := Float 0x3FE6666666666666.

Definition completion_call (question context : pystr) : event :=
  chat_completions_create (py "gpt-3.5-turbo") (completion_messages question context)
    temperature 500.

Definition get_answer_from_openai (question context openai_api_key : pystr) : M W pystr :=
  try_except
    (call (OpenAI_new openai_api_key) (do_OpenAI env openai_api_key) >>
     call (completion_call question context)
          (do_chat_completions env (completion_messages question context)))
    (fun e =>
       emit (st_error (py "Gagal mendapatkan jawaban dari OpenAI: " ++ str_exn e)) >>
       ret apology).

(** *** The upload handler (lines 151-167) *)

(** [uploaded_file.read().decode("utf-8")]: [read] returns what is left of
    the stream and leaves it at its end. *)
Definition read_decode (f : file) : M W pystr :=
  fun s =>
    if file_read s then (Val [], s)
    else (match f_decoded f with inl e => Raise e | inr t => Val t end,
          set_file_read true s).

Definition upload_section (fuel : nat) (uploaded_file : option file) (index_name : pystr)
    (button : bool) (openai_embedding_client pinecone_client : option client) : M W unit :=
  match uploaded_file with
  | Some f =>
      if truthy index_name && button then
        match openai_embedding_client, pinecone_client with
        | Some _, Some _ =>
            file_content <- read_decode f ;;
            if truthy (texts file_content) then
              upsert_to_pinecone fuel index_name (texts file_content)
                (metadata_list (f_name f) (texts file_content))
                pinecone_client openai_embedding_client >>
              ret tt
            else emit (st_warning (py "File tidak berisi teks yang dapat diproses."))
        | _, _ => emit (st_error (py "Harap masukkan API Key yang valid."))
        end
      else ret tt
  | None => ret tt
  end.

(** *** The chat handler (lines 174-227) *)

(** [for x in l: body(x)] *)
Fixpoint for_each {A} (l : list A) (body : A -> M W unit) : M W unit :=
  match l with
  | [] => ret tt
  | x :: r => body x >> for_each r body
  end.

(** [st.session_state.messages.append(m)] *)
Definition append_message (m : message) : M W unit :=
  ss <- get_session ;;
  match messages ss with
  | Some ms => put_session {| messages := Some (ms ++ [m]); text_cache := text_cache ss |}
  | None => raise (AttributeError (py "st.session_state has no attribute 'messages'"))
  end.

(** Line 196: the first value of [context_texts], for one match. *)
Definition id_or_text (mt : Match) : pyval :=
  match m_metadata mt !! py "text" with
  | Some v => v
  | None => PStr (join (py " ") (split 45 (m_id mt)))
  end.

(** Lines 210-211: the [elif] of the loop body. *)
Definition text_fallback (mt : Match) (context_texts : list pyval) : list pyval :=
  match m_metadata mt !! py "text" with
  | Some v => context_texts ++ [v]
  | None => context_texts
  end.

(** Lines 206-213: the body of the loop over the matches, when the text
    cache holds the uploaded file. *)
Definition cached_line (all_lines : list pystr) (mt : Match) (context_texts : list pyval)
    : M W (list pyval) :=
  try_except
    (match m_metadata mt !! py "line" with
     | Some (PInt line_num) =>
         if (line_num <? Z.of_nat (length all_lines))%Z then
           l <- py_index all_lines line_num ;;
           ret (context_texts ++ [PStr l])
         else ret (text_fallback mt context_texts)
     | Some (PStr _) =>
         raise (TypeError (py "'<' not supported between instances of 'str' and 'int'"))
     | None => ret (text_fallback mt context_texts)
     end)
    (fun e =>
       emit (st_warning (py "Gagal mengambil konteks dari baris: " ++ str_exn e)) >>
       ret context_texts).

Fixpoint cached_lines (all_lines : list pystr) (pinecone_results : list Match)
    (context_texts : list pyval) : M W (list pyval) :=
  match pinecone_results with
  | [] => ret context_texts
  | mt :: rest =>
      context_texts' <- cached_line all_lines mt context_texts ;;
      cached_lines all_lines rest context_texts'
  end.

(** Line 215: [match.metadata.get('text', match.id)] *)
Definition text_or_id (mt : Match) : pyval :=
  default (PStr (m_id mt)) (m_metadata mt !! py "text").

(** The cached text of the uploaded file, when the three tests of
    line 202 hold. *)
Definition cache_entry (uploaded_file : option file) (ss : session) : option pystr :=
  f ← uploaded_file; cache ← text_cache ss; cache !! f_name f.

(** [sep.join(items)], which wants strings. *)
Fixpoint strings_of (items : list pyval) : option (list pystr) :=
  match items with
  | [] => Some []
  | PStr s :: r => (s ::.) <$> strings_of r
  | PInt _ :: _ => None
  end.

(** The position of the first item that is not a string. *)
Fixpoint first_non_string (items : list pyval) : nat :=
  match items with
  | PStr _ :: r => S (first_non_string r)
  | _ => 0
  end.

Definition join_values (sep : pystr) (items : list pyval) : M W pystr :=
  match strings_of items with
  | Some parts => ret (join sep parts)
  | None =>
      raise (TypeError (py "sequence item " ++ str_nat (first_non_string items)
                        ++ py ": expected str instance, int found"))
  end.

(** Lines 194-217: the context handed to the completion call. *)
Definition reconstruct_context (uploaded_file : option file)
    (pinecone_results : list Match) : M W pystr :=
  if truthy pinecone_results then
    let context_texts := map id_or_text pinecone_results in
    ss <- get_session ;;
    context_texts <-
      match cache_entry uploaded_file ss with
      | Some cached =>
          cached_lines (split NL cached) pinecone_results []
      | None =>
          if truthy pinecone_results then ret (map text_or_id pinecone_results)
          else ret context_texts
      end ;;
    join_values [NL] context_texts
  else ret [].

Definition configured (cfg : config) : bool :=
  truthy (openai_api_key cfg) && truthy (pinecone_api_key cfg)
  && truthy (pinecone_environment cfg).

(** Lines 179-180: one message of the history on the page. *)
Definition show_message (m : message) : M W unit :=
  emit (st_chat_message (role m)) >> emit (st_markdown (content m)).

(** Lines 174-180: create the history when it is missing and show it. *)
Definition show_history : M W unit :=
  ss <- get_session ;;
  match messages ss with
  | None => put_session {| messages := Some []; text_cache := text_cache ss |}
  | Some _ => ret tt
  end >>
  ss <- get_session ;;
  for_each (default [] (messages ss)) show_message.

(** Lines 184-186: record and show the user's turn. *)
Definition user_turn (prompt : pystr) : M W unit :=
  append_message {| role := py "user"; content := prompt |} >>
  emit (st_chat_message (py "user")) >>
  emit (st_markdown prompt).

Definition no_context_warning : pystr :=
  py "Tidak menemukan konteks yang relevan di database Anda. Akan mencoba menjawab dengan pengetahuan umum OpenAI.".

(** Lines 219-225: the completion call and the assistant's turn. *)
Definition answer_turn (cfg : config) (prompt context : pystr) : M W unit :=
  (if truthy context then ret tt else emit (st_warning no_context_warning)) >>
  answer <- get_answer_from_openai prompt context (openai_api_key cfg) ;;
  emit (st_markdown answer) >>
  append_message {| role := py "assistant"; content := answer |}.

(** Lines 189-217: the matches of the question and the context rebuilt
    from them. *)
Definition build_context (prompt : pystr) (uploaded_file : option file)
    (index_name : pystr) (pinecone_client openai_embedding_client : option client)
    : M W pystr :=
  emit (st_chat_message (py "assistant")) >>
  pinecone_results <-
    query_pinecone index_name prompt 3 pinecone_client openai_embedding_client ;;
  reconstruct_context uploaded_file pinecone_results.

(** Lines 189-225: the branch taken when the configuration is complete. *)
Definition assistant_turn (cfg : config) (prompt : pystr)
    (uploaded_file : option file) (index_name : pystr)
    (pinecone_client openai_embedding_client : option client) : M W unit :=
  context <- build_context prompt uploaded_file index_name
               pinecone_client openai_embedding_client ;;
  answer_turn cfg prompt context.

Definition config_error : pystr :=
  py "Harap masukkan semua API Key dan Konfigurasi Pinecone di sidebar.".

(** [prompt] is what [st.chat_input] returned: [None], or the text
    submitted. *)
Definition chat_section (cfg : config) (prompt : option pystr)
    (uploaded_file : option file) (index_name : pystr)
    (pinecone_client openai_embedding_client : option client) : M W unit :=
  show_history >>
  match prompt with
  | Some ((_ :: _) as prompt) =>
      user_turn prompt >>
      if configured cfg then
        assistant_turn cfg prompt uploaded_file index_name
          pinecone_client openai_embedding_client
      else emit (st_error config_error)
  | _ => ret tt
  end.

(** *** The text cache (lines 233-236) *)
Definition cache_section (uploaded_file : option file) : M W unit :=
  match uploaded_file with
  | Some f =>
      ss <- get_session ;;
      match text_cache ss with
      | None => put_session {| messages := messages ss; text_cache := Some ∅ |}
      | Some _ => ret tt
      end >>
      text <- read_decode f ;;
      ss <- get_session ;;
      put_session {| messages := messages ss;
                     text_cache := Some (<[f_name f := text]> (default ∅ (text_cache ss))) |}
  | None => ret tt
  end.

End Script.

(** ** A scripted world for the examples

    Every service answers from a fixed table; the world has no state of
    its own. *)
Record script_world := {
  sw_embedding : pystr -> exn + list float;
  sw_names : list pystr;
  sw_upsert : exn + unit;
  sw_matches : exn + list Match;
  sw_completion : exn + pystr
}.

Definition scripted (o : script_world) : Env unit := {|
  do_embeddings_create t w := (sw_embedding o t, w);
  do_list_indexes w := (inr (sw_names o), w);
  do_create_index _ w := (inr tt, w);
  do_describe_index _ w := (inr true, w);
  do_Index _ w := (inr tt, w);
  do_upsert _ _ w := (sw_upsert o, w);
  do_query _ _ _ w := (sw_matches o, w);
  do_OpenAI _ w := (inr tt, w);
  do_chat_completions _ w := (sw_completion o, w);
  do_time w := (Float 0, w);
  do_sleep _ w := w;
  repr_float _ := py "0.0"
|}.

(** The state a session starts in. *)
Definition fresh : state unit :=
  Build_state tt [] {| messages := None; text_cache := None |} false.

(** A file text given by its lines. *)
Definition unlines (ls : list string) : pystr := join [NL] (map py ls).

(** ** The splitting policy *)

(** A line made of white space only (the empty line is one). *)
Definition blank (line : pystr) : Prop := Forall (fun c => isspace c = true) line.

#[global] Instance blank_dec line : Decision (blank line).
Proof. unfold blank. apply _. Defined.

(** ** Uploads, matches and worlds of the examples *)

(** An upload with a blank line between two chunks. *)
Definition fruit_text : pystr := unlines ["apple"; ""; "banana"].

Definition fruit_file : file :=
  {| f_name := py "fruit.txt"; f_decoded := inr fruit_text |}.

(** The match the index returns for the chunk [banana] of [fruit_file]:
    its metadata is the one the upload handler built for it. *)
Definition banana_match : Match :=
  {| m_id := py "doc-0.0-1";
     m_score := Float 0;
     m_metadata := <[py "source" := PStr (py "fruit.txt")]> (<[py "line" := PInt 1]> ∅) |}.

(** A world in which every call succeeds. *)
Definition calm : script_world :=
  {| sw_embedding _ := inr [Float 1];
     sw_names := [py "my-chatbot-data"];
     sw_upsert := inr tt;
     sw_matches := inr [];
     sw_completion := inr (py "Jawaban.") |}.

(** The session after [fruit_file] was cached. *)
Definition fruit_cached : state unit :=
  Build_state tt []
    {| messages := Some []; text_cache := Some {[ py "fruit.txt" := fruit_text ]} |}
    false.

(** ** Vocabulary of the statements *)

(** What [show_history] puts on the page for a history. *)
Definition history_events (ms : list message) : list event :=
  flat_map (fun m => [st_chat_message (role m); st_markdown (content m)]) ms.

(** The user's turn and the assistant's turn for a text. *)
Definition user_message (prompt : pystr) : message :=
  {| role := py "user"; content := prompt |}.

Definition assistant_message (answer : pystr) : message :=
  {| role := py "assistant"; content := answer |}.

(** The state in which the assistant's branch starts: the history was
    shown and the user's turn recorded. *)
Definition asked {W} (prompt : pystr) (s : state W) : state W :=
  snd (user_turn prompt (snd (show_history s))).

(** A computation that leaves [st.session_state] as it found it. *)
Definition keeps_session {W A} (c : M W A) : Prop :=
  forall s, session_state (snd (c s)) = session_state s.

(** The completion gateway fails with [e], leaving the world in [w']:
    building the client raises, or the completion request does. *)
Definition completion_fails {W} (env : Env W) (api_key question context : pystr)
    (w : W) (e : exn) (w' : W) : Prop :=
  do_OpenAI env api_key w = (inl e, w')
  \/ exists w1, do_OpenAI env api_key w = (inr tt, w1)
       /\ do_chat_completions env (completion_messages question context) w1 = (inl e, w').

Definition answer_error (e : exn) : event :=
  st_error (py "Gagal mendapatkan jawaban dari OpenAI: " ++ str_exn e).

Definition embedding_error (e : exn) : event :=
  st_error (py "Gagal mendapatkan embedding: " ++ str_exn e).

Definition embedding_call (text : pystr) : event :=
  embeddings_create text (py "text-embedding-ada-002").

(** A world in which the embedding endpoint is down. *)
Definition deaf : script_world :=
  {| sw_embedding _ := inl (ServiceError (py "timeout"));
     sw_names := [py "my-chatbot-data"];
     sw_upsert := inr tt;
     sw_matches := inr [];
     sw_completion := inr (py "Jawaban.") |}.

(** A world in which the batch call of the index fails. *)
Definition full : script_world :=
  {| sw_embedding _ := inr [Float 1];
     sw_names := [py "my-chatbot-data"];
     sw_upsert := inl (ServiceError (py "quota"));
     sw_matches := inr [];
     sw_completion := inr (py "Jawaban.") |}.

(** A world in which the completion endpoint is down. *)
Definition mute : script_world :=
  {| sw_embedding _ := inr [Float 1];
     sw_names := [py "my-chatbot-data"];
     sw_upsert := inr tt;
     sw_matches := inr [];
     sw_completion := inl (ServiceError (py "overloaded")) |}.

Definition full_config : config :=
  {| openai_api_key := py "sk-1";
     pinecone_api_key := py "pc-1";
     pinecone_environment := py "us-west-2-aws" |}.

Definition a_client : client := Client (py "k").

(** What a run yields when the batch it started from is [acc]. *)
Definition onto {W A} (acc : list A) (r : result (list A) * state W)
    : result (list A) * state W :=
  match r with
  | (Val vs, s) => (Val (acc ++ vs), s)
  | other => other
  end.

Definition upsert_error (e : exn) : event :=
  st_error (py "Gagal mengunggah ke Pinecone: " ++ str_exn e).

Definition the_index : pystr := py "my-chatbot-data".

(** A match left in the index by an earlier, longer upload: its [line] is
    beyond the three lines of [fruit_file] and it carries no [text]. *)
Definition stale_match : Match :=
  {| m_id := py "doc-0.0-7";
     m_score := Float 0;
     m_metadata := <[py "source" := PStr (py "fruit.txt")]> (<[py "line" := PInt 7]> ∅) |}.

(** A configuration without the OpenAI key. *)
Definition keyless_config : config :=
  {| openai_api_key := [];
     pinecone_api_key := py "pc-1";
     pinecone_environment := py "us-west-2-aws" |}.

(** A world whose embedding endpoint refuses one text. *)
Definition picky : script_world :=
  {| sw_embedding t :=
       if bool_decide (t = py "bad") then inl (ServiceError (py "refused"))
       else inr [Float 1];
     sw_names := [py "my-chatbot-data"];
     sw_upsert := inr tt;
     sw_matches := inr [];
     sw_completion := inr (py "Jawaban.") |}.

(** The vector of chunk [i] of the upload [a.txt] in the scripted worlds. *)
Definition chunk_vector (i : nat) : vector_record :=
  {| v_id := py "doc-0.0-" ++ str_nat i;
     v_values := [Float 1];
     v_metadata := <[py "source" := PStr (py "a.txt")]> (<[py "line" := PInt (Z.of_nat i)]> ∅) |}.

(** ** The page run and the vocabulary of the further properties *)

(** Lines 151-236 in one run of the page: the upload handler, the chat
    handler, then the text cache. [button] and [prompt] are what
    [st.button] and [st.chat_input] return in this run; the two clients
    are the ones lines 131-142 left. *)
Definition page_run {W} (env : Env W) (fuel : nat) (cfg : config)
    (uploaded_file : option file) (index_name : pystr) (button : bool)
    (prompt : option pystr) (pinecone_client openai_embedding_client : option client)
    : M W unit :=
  upload_section env fuel uploaded_file index_name button
    openai_embedding_client pinecone_client >>
  chat_section env cfg prompt uploaded_file index_name
    pinecone_client openai_embedding_client >>
  cache_section uploaded_file.

(** The texts sent to the embedding endpoint, in the order of the calls. *)
Definition embedded_texts (l : list event) : list pystr :=
  omap (fun ev => match ev with embeddings_create t _ => Some t | _ => None end) l.

(** [v] is the vector record of chunk [k]: a non-empty embedding, the
    metadata of that chunk, and an id ending in the chunk's ordinal. *)
Definition vector_of {W} (env : Env W) (mdl : list metadata)
    (v : vector_record) (k : nat) : Prop :=
  v_values v <> []
  /\ mdl !! k = Some (v_metadata v)
  /\ exists t, v_id v = py "doc-" ++ repr_float env t ++ py "-" ++ str_nat k.

(** A computation that leaves the uploaded file's stream where it was. *)
Definition keeps_file {W A} (c : M W A) : Prop :=
  forall s, file_read (snd (c s)) = file_read s.

(** The success message of the batch call. *)
Definition upsert_success (index_name : pystr) (n : nat) : event :=
  st_success (py "Berhasil mengunggah " ++ str_nat n
              ++ py " vektor ke Pinecone indeks '" ++ index_name ++ py "'.").

(** A world with no index, in which a created index never gets ready. *)
Definition stalled : Env unit := {|
  do_embeddings_create _ w := (inr [Float 1], w);
  do_list_indexes w := (inr [], w);
  do_create_index _ w := (inr tt, w);
  do_describe_index _ w := (inr false, w);
  do_Index _ w := (inr tt, w);
  do_upsert _ _ w := (inr tt, w);
  do_query _ _ _ w := (inr [], w);
  do_OpenAI _ w := (inr tt, w);
  do_chat_completions _ w := (inr (py "Jawaban."), w);
  do_time w := (Float 0, w);
  do_sleep _ w := w;
  repr_float _ := py "0.0"
|}.

(** A world in which listing the indexes fails. *)
Definition offline : Env unit := {|
  do_embeddings_create _ w := (inr [Float 1], w);
  do_list_indexes w := (inl (ServiceError (py "unreachable")), w);
  do_create_index _ w := (inr tt, w);
  do_describe_index _ w := (inr true, w);
  do_Index _ w := (inr tt, w);
  do_upsert _ _ w := (inr tt, w);
  do_query _ _ _ w := (inr [], w);
  do_OpenAI _ w := (inr tt, w);
  do_chat_completions _ w := (inr (py "Jawaban."), w);
  do_time w := (Float 0, w);
  do_sleep _ w := w;
  repr_float _ := py "0.0"
|}.

(** The text a match contributes when the file is not cached: its
    [text] when that is a string, else its id. *)
Definition text_or_id_string (mt : Match) : pystr :=
  match m_metadata mt !! py "text" with
  | Some (PStr t) => t
  | _ => m_id mt
  end.

(** A world whose index answers every query with [banana_match]. *)
Definition stocked : script_world :=
  {| sw_embedding _ := inr [Float 1];
     sw_names := [py "my-chatbot-data"];
     sw_upsert := inr tt;
     sw_matches := inr [banana_match];
     sw_completion := inr (py "Jawaban.") |}.

(** A world whose index refuses the query. *)
Definition jammed : script_world :=
  {| sw_embedding _ := inr [Float 1];
     sw_names := [py "my-chatbot-data"];
     sw_upsert := inr tt;
     sw_matches := inl (ServiceError (py "busy"));
     sw_completion := inr (py "Jawaban.") |}.

(** An upload made of blank lines only. *)
Definition blank_file : file :=
  {| f_name := py "blank.txt"; f_decoded := inr (unlines [""; "  "; ""]) |}.

(** Matches whose [line] is negative: the last line, and a line out of
    reach that comes with a [text]. *)
Definition last_line_match : Match :=
  {| m_id := py "doc-0.0-2";
     m_score := Float 0;
     m_metadata := <[py "line" := PInt (-1)]> ∅ |}.

Definition far_match : Match :=
  {| m_id := py "doc-0.0-3";
     m_score := Float 0;
     m_metadata := <[py "text" := PStr (py "pear")]> (<[py "line" := PInt (-9)]> ∅) |}.

(** Matches that carry a [text]: a string, and a number. *)
Definition texted_match : Match :=
  {| m_id := py "doc-0.0-4";
     m_score := Float 0;
     m_metadata := <[py "text" := PStr (py "pear")]> ∅ |}.

Definition numbered_match : Match :=
  {| m_id := py "doc-0.0-5";
     m_score := Float 0;
     m_metadata := <[py "text" := PInt 5]> ∅ |}.

(** The chunks and the metadata of a three-line upload. *)
Definition three_texts : list pystr := [py "apple"; py "bad"; py "banana"].

Definition three_metadata : list metadata := metadata_list (py "a.txt") three_texts.

(** ** Vocabulary of the revised statements *)

(** The embedding of [text] fails with [e] and leaves the world in [w']:
    there is no client, or the call raises. *)
Definition embedding_fails {W} (env : Env W) (ocl : option client) (text : pystr)
    (w : W) (e : exn) (w' : W) : Prop :=
  match ocl with
  | None =>
      e = AttributeError (py "'NoneType' object has no attribute 'embeddings'")
      /\ w' = w
  | Some _ => do_embeddings_create env text w = (inl e, w')
  end.

(** What [get_embedding] leaves in the log when it fails. *)
Definition failed_embedding_events (ocl : option client) (text : pystr) (e : exn)
    : list event :=
  match ocl with
  | None => [embedding_error e]
  | Some _ => [embedding_call text; embedding_error e]
  end.

(** The chunks the batch is to hold, as the claim words it: going through
    the chunks in order from ordinal [i], a chunk whose embedding call
    raises (or returns nothing) is skipped, every other chunk is taken with
    its ordinal and its embedding. The world is the one the calls leave:
    the embedding call of each chunk, then the clock for a chunk taken. *)
Fixpoint accepted {W} (env : Env W) (i : nat) (texts : list pystr) (w : W)
    : list (nat * list float) :=
  match texts with
  | [] => []
  | text :: rest =>
      match do_embeddings_create env text w with
      | (inr (x :: v), w1) =>
          (i, x :: v) :: accepted env (S i) rest (snd (do_time env w1))
      | (_, w1) => accepted env (S i) rest w1
      end
  end.

(** [v] is the vector record of chunk [k] with embedding [e]. *)
Definition batched {W} (env : Env W) (mdl : list metadata)
    (v : vector_record) (ke : nat * list float) : Prop :=
  v_values v = ke.2
  /\ mdl !! ke.1 = Some (v_metadata v)
  /\ exists t, v_id v = py "doc-" ++ repr_float env t ++ py "-" ++ str_nat ke.1.

(** The world after [n] polls that found the index not ready, each
    followed by the sleep of line 60. *)
Fixpoint still_warming {W} (env : Env W) (index_name : pystr) (n : nat) (w : W)
    : option W :=
  match n with
  | O => Some w
  | S n' =>
      match do_describe_index env index_name w with
      | (inr false, w1) => still_warming env index_name n' (do_sleep env 1 w1)
      | _ => None
      end
  end.

(** The calls of a poll that found the index ready at its [n+1]-th look. *)
Definition poll_events (index_name : pystr) (n : nat) : list event :=
  concat (replicate n [describe_index index_name; time_sleep 1])
  ++ [describe_index index_name].

(** A world with no index, whose state counts the seconds slept: a
    created index is ready after two seconds. *)
Definition warming : Env nat := {|
  do_embeddings_create _ w := (inr [Float 1], w);
  do_list_indexes w := (inr [], w);
  do_create_index _ w := (inr tt, w);
  do_describe_index _ w := (inr (2 <=? w), w);
  do_Index _ w := (inr tt, w);
  do_upsert _ _ w := (inr tt, w);
  do_query _ _ _ w := (inr [], w);
  do_OpenAI _ w := (inr tt, w);
  do_chat_completions _ w := (inr (py "Jawaban."), w);
  do_time w := (Float 0, w);
  do_sleep _ w := S w;
  repr_float _ := py "0.0"
|}.

Definition cold : state nat :=
  Build_state 0 [] {| messages := None; text_cache := None |} false.

(** The chunks and the metadata of a five-line upload. *)
Definition five_texts : list pystr :=
  [py "apple"; py "bad"; py "banana"; py "cherry"; py "date"].

Definition five_metadata : list metadata := metadata_list (py "a.txt") five_texts.

Lemma lstrip_blank s : blank (lstrip s) <-> blank s.
Proof.
  unfold blank. induction s as [|c r IH]; simpl; [done|].
  destruct (isspace c) eqn:Hc; [|done].
  rewrite IH. split; [by constructor | by inversion 1].
Qed.

Lemma lstrip_nil s : lstrip s = [] <-> blank s.
Proof.
  unfold blank. induction s as [|c r IH]; simpl; [done|].
  destruct (isspace c) eqn:Hc.
  - rewrite IH. split; [by constructor | by inversion 1].
  - split; [done|]. inversion 1; congruence.
Qed.

Lemma strip_nil s : strip s = [] <-> blank s.
Proof.
  unfold strip, rstrip.
  rewrite <- (lstrip_blank s).
  split.
  - intros H. apply (f_equal (@rev _)) in H. rewrite rev_involutive in H.
    simpl in H. apply lstrip_nil in H. unfold blank in *.
    by apply Forall_rev in H; rewrite rev_involutive in H.
  - intros H. assert (Hr : lstrip (rev (lstrip s)) = []).
    { apply lstrip_nil. unfold blank in *. by apply Forall_rev. }
    by rewrite Hr.
Qed.

Lemma truthy_strip line : truthy (strip line) = true <-> ~ blank line.
Proof.
  rewrite <- strip_nil. destruct (strip line); simpl; split; try done.
Qed.

Lemma texts_filter file_content :
  texts file_content = map strip (filter (fun line => ~ blank line) (split NL file_content)).
Proof.
  unfold texts. f_equal. apply list_filter_iff. intros line. apply truthy_strip.
Qed.

(** C3: the chunks are the trimmed lines that are not blank, one chunk per
    such line and none for a blank or white-space-only line; no chunk is
    empty. *)
Theorem texts_count (file_content : pystr) :
  length (texts file_content)
    = length (filter (fun line => strip line <> []) (split NL file_content))
  /\ length (texts file_content)
    = length (filter (fun line => ~ blank line) (split NL file_content))
  /\ (forall t, t ∈ texts file_content ->
        t <> [] /\ exists line, line ∈ split NL file_content /\ ~ blank line /\ t = strip line)
  /\ (forall line, line ∈ split NL file_content -> blank line ->
        strip line ∉ texts file_content).
Proof.
  assert (Hlen : length (texts file_content)
            = length (filter (fun line => ~ blank line) (split NL file_content))).
  { by rewrite texts_filter, length_map. }
  assert (Hmem : forall t, t ∈ texts file_content ->
            t <> [] /\ exists line, line ∈ split NL file_content /\ ~ blank line /\ t = strip line).
  { intros t. rewrite texts_filter. intros Ht.
    apply list_elem_of_fmap in Ht as (line & -> & Hline).
    apply list_elem_of_filter in Hline as [Hnb Hin].
    split; [by rewrite strip_nil | eauto]. }
  repeat split; try done.
  - rewrite Hlen. f_equal. apply list_filter_iff. intros line. by rewrite strip_nil.
  - by apply Hmem.
  - by apply Hmem.
  - intros line _ Hb Hin. apply Hmem in Hin as [Hne _]. by apply Hne, strip_nil.
Qed.

(** ** The line index *)

Lemma metadata_list_lookup name (ts : list pystr) k md :
  metadata_list name ts !! k = Some md ->
  k < length ts /\
  md = <[py "source" := PStr name]> (<[py "line" := PInt (Z.of_nat k)]> ∅).
Proof.
  unfold metadata_list. rewrite list_lookup_imap.
  destruct (ts !! k) eqn:Hk; simpl; [|done].
  intros [= <-]. split; [by eapply lookup_lt_Some | done].
Qed.

(** The [line] of the [k]-th chunk is [k], its rank among the chunks. *)
Lemma metadata_list_line name (ts : list pystr) k md :
  metadata_list name ts !! k = Some md ->
  md !! py "line" = Some (PInt (Z.of_nat k)).
Proof.
  intros [_ ->]%metadata_list_lookup.
  rewrite lookup_insert_ne by (by vm_compute).
  apply lookup_insert_eq.
Qed.

(** C2, on the upload [apple / (blank) / banana]: the chunk [banana] is
    line 2 of the file and chunk 1 of the filtered sequence, and the
    [line] stored for it is 1. *)
Theorem line_is_rank_among_chunks :
  split NL fruit_text !! 2 = Some (py "banana")
  /\ texts fruit_text !! 1 = Some (py "banana")
  /\ (metadata_list (f_name fruit_file) (texts fruit_text) !! 1) ≫= (.!! py "line")
     = Some (PInt 1).
Proof. by vm_compute. Qed.

(** C1, on the same upload: with the file in the text cache, the context
    rebuilt for the match of the chunk [banana] (whose [line], 1, is within
    the three cached lines) is the blank line, not [banana]. *)
Theorem round_trip_lost_after_blank_line :
  texts fruit_text !! 1 = Some (py "banana")
  /\ metadata_list (f_name fruit_file) (texts fruit_text) !! 1
     = Some (m_metadata banana_match)
  /\ cache_entry (Some fruit_file) (session_state fruit_cached) = Some fruit_text
  /\ fst (cached_line (split NL fruit_text) banana_match [] fruit_cached)
     = Val [PStr []]
  /\ fst (reconstruct_context (Some fruit_file) [banana_match] fruit_cached) = Val [].
Proof. by vm_compute. Qed.

(** ** Running the script *)

(** Runs the monadic glue of a goal up to the next call that is stuck. *)
Ltac mrun :=
  repeat (progress
    (unfold bind, ret, raise, emit, try_except, get_session, put_session,
       append_message, set_session, add_log, set_world, set_file_read;
     simpl)).

Section Runs.
Context {W : Type} (env : Env W).

Lemma bind_val {A B} (c : M W A) (k : A -> M W B) s a s' :
  c s = (Val a, s') -> bind c k s = k a s'.
Proof. unfold bind. by intros ->. Qed.

Lemma bind_raise {A B} (c : M W A) (k : A -> M W B) s e s' :
  c s = (Raise e, s') -> bind c k s = (Raise e, s').
Proof. unfold bind. by intros ->. Qed.

Lemma bind_assoc {A B C} (c : M W A) (k : A -> M W B) (h : B -> M W C) s :
  bind (bind c k) h s = bind c (fun a => bind (k a) h) s.
Proof. unfold bind. by destruct (c s) as [[a| |] s1]. Qed.

Lemma bind_ext {A B} (c : M W A) (k k' : A -> M W B) s :
  (forall a s', k a s' = k' a s') -> bind c k s = bind c k' s.
Proof. intros H. unfold bind. by destruct (c s) as [[a| |] s1]. Qed.

Lemma call_ok {A} ev (op : W -> (exn + A) * W) s a w :
  op (world s) = (inr a, w) -> call ev op s = (Val a, set_world w (add_log ev s)).
Proof. unfold call. by intros ->. Qed.

Lemma call_raises {A} ev (op : W -> (exn + A) * W) s e w :
  op (world s) = (inl e, w) -> call ev op s = (Raise e, set_world w (add_log ev s)).
Proof. unfold call. by intros ->. Qed.

Lemma for_each_show (ms : list message) (s : state W) :
  for_each ms show_message s
  = (Val tt, Build_state (world s) (log s ++ history_events ms) (session_state s) (file_read s)).
Proof.
  revert s. induction ms as [|m ms IH]; intros s; simpl.
  - unfold ret. rewrite app_nil_r. by destruct s.
  - unfold show_message at 1. mrun. rewrite IH. simpl. by rewrite <- !app_assoc.
Qed.

Lemma show_history_run (s : state W) :
  show_history s
  = (Val tt,
     Build_state (world s)
       (log s ++ history_events (default [] (messages (session_state s))))
       {| messages := Some (default [] (messages (session_state s)));
          text_cache := text_cache (session_state s) |}
       (file_read s)).
Proof.
  unfold show_history.
  destruct s as [w l [[ms|] tc] fr]; mrun.
  - by rewrite for_each_show.
  - by rewrite app_nil_r.
Qed.

Lemma configured_false cfg :
  openai_api_key cfg = [] \/ pinecone_api_key cfg = [] \/ pinecone_environment cfg = [] ->
  configured cfg = false.
Proof.
  unfold configured. intros [-> | [-> | ->]]; simpl; [done| |].
  - by rewrite andb_false_r.
  - by rewrite andb_false_r.
Qed.

(** C10: a question asked while a configuration value is missing adds the
    user's turn to the history and nothing else: the run ends with the
    configuration error on the page, makes no call, and the history is the
    old one followed by the user's turn. *)
Theorem question_without_configuration cfg prompt uploaded_file index_name
    pinecone_client openai_embedding_client (s : state W) :
  prompt <> [] ->
  openai_api_key cfg = [] \/ pinecone_api_key cfg = [] \/ pinecone_environment cfg = [] ->
  chat_section env cfg (Some prompt) uploaded_file index_name
    pinecone_client openai_embedding_client s
  = (Val tt,
     Build_state (world s)
       (log s ++ history_events (default [] (messages (session_state s)))
          ++ [st_chat_message (py "user"); st_markdown prompt; st_error config_error])
       {| messages := Some (default [] (messages (session_state s)) ++ [user_message prompt]);
          text_cache := text_cache (session_state s) |}
       (file_read s)).
Proof.
  intros Hp Hcfg. unfold chat_section.
  erewrite bind_val by apply show_history_run.
  destruct prompt as [|c prompt]; [done|].
  rewrite (configured_false _ Hcfg). unfold user_turn. mrun.
  by rewrite <- !app_assoc.
Qed.

(** C7: querying an index whose name the service does not list returns the
    empty match list, with a warning on the page; no embedding and no
    query call is made. Without a Pinecone client the result is the empty
    list too. *)
Theorem query_unknown_index index_name query_text top_k
    pinecone_client embedding_client (s : state W) names w :
  do_list_indexes env (world s) = (inr names, w) ->
  index_name ∉ names ->
  query_pinecone env index_name query_text top_k pinecone_client embedding_client s
  = (Val [],
     match pinecone_client with
     | Some _ =>
         Build_state w
           (log s ++ [list_indexes;
                      st_warning (py "Indeks '" ++ index_name ++ py "' tidak ditemukan.")])
           (session_state s) (file_read s)
     | None =>
         Build_state (world s)
           (log s ++ [st_error (py "Pinecone belum diinisialisasi. Tidak dapat melakukan pencarian.")])
           (session_state s) (file_read s)
     end).
Proof.
  intros Hlist Hnot. unfold query_pinecone.
  destruct pinecone_client as [c|]; [|by mrun].
  erewrite bind_val by (by apply call_ok).
  rewrite bool_decide_eq_false_2 by done. mrun.
  by rewrite <- !app_assoc.
Qed.

(** *** Computations that do not touch the session *)

Lemma keeps_ret {A} (a : A) : keeps_session (ret (W:=W) a).
Proof. by intros s. Qed.

Lemma keeps_raise {A} e : keeps_session (raise (W:=W) (A:=A) e).
Proof. by intros s. Qed.

Lemma keeps_emit ev : keeps_session (emit (W:=W) ev).
Proof. by intros s. Qed.

Lemma keeps_call {A} ev (op : W -> (exn + A) * W) : keeps_session (call ev op).
Proof. intros s. unfold call. by destruct (op (world s)). Qed.

Lemma keeps_call_total {A} ev (op : W -> A * W) : keeps_session (call_total ev op).
Proof. intros s. unfold call_total. by destruct (op (world s)). Qed.

Lemma keeps_get_session : keeps_session (get_session (W:=W)).
Proof. by intros s. Qed.

Lemma keeps_bind {A B} (c : M W A) (k : A -> M W B) :
  keeps_session c -> (forall a, keeps_session (k a)) -> keeps_session (bind c k).
Proof.
  intros Hc Hk s. unfold bind. specialize (Hc s).
  destruct (c s) as [[a| |] s1]; simpl in *; [|done..].
  by rewrite Hk.
Qed.

Lemma keeps_try {A} (c : M W A) (h : exn -> M W A) :
  keeps_session c -> (forall e, keeps_session (h e)) -> keeps_session (try_except c h).
Proof.
  intros Hc Hh s. unfold try_except. specialize (Hc s).
  destruct (c s) as [[a|e|] s1]; simpl in *; [done| |done].
  by rewrite Hh.
Qed.

Lemma keeps_py_index {A} (l : list A) z : keeps_session (py_index (W:=W) l z).
Proof.
  intros s. unfold py_index.
  destruct (_ && _); [|done]. by destruct (l !! _).
Qed.

End Runs.

Create HintDb keeps.

#[global] Hint Resolve keeps_ret keeps_raise keeps_emit keeps_call keeps_call_total
  keeps_get_session keeps_py_index : keeps.

(** Splits a computation along its binds, handlers and tests. *)
Ltac keeps :=
  repeat first
    [ progress eauto with keeps
    | apply keeps_bind; [|intros ?]
    | apply keeps_try; [|intros ?]
    | match goal with
      | |- keeps_session (if ?b then _ else _) => destruct b
      | |- keeps_session (match ?x with _ => _ end) => destruct x
      end ].

Section Gateways.
Context {W : Type} (env : Env W).

Lemma keeps_get_embedding text cl : keeps_session (get_embedding env text cl).
Proof. unfold get_embedding. keeps. Qed.

Lemma keeps_query_pinecone index_name query_text top_k pcl ecl :
  keeps_session (query_pinecone env index_name query_text top_k pcl ecl).
Proof.
  unfold query_pinecone. pose proof keeps_get_embedding. keeps.
Qed.

Lemma keeps_cached_lines all_lines (rs : list Match) acc :
  keeps_session (cached_lines (W:=W) all_lines rs acc).
Proof.
  revert acc. induction rs as [|mt rs IH]; intros acc; simpl; [keeps|].
  apply keeps_bind; [unfold cached_line; keeps | done].
Qed.

Lemma keeps_reconstruct_context uploaded_file (rs : list Match) :
  keeps_session (reconstruct_context (W:=W) uploaded_file rs).
Proof.
  unfold reconstruct_context, join_values. pose proof keeps_cached_lines. keeps.
Qed.

Lemma keeps_build_context prompt uploaded_file index_name pcl ecl :
  keeps_session (build_context env prompt uploaded_file index_name pcl ecl).
Proof.
  unfold build_context.
  pose proof keeps_query_pinecone. pose proof keeps_reconstruct_context. keeps.
Qed.

(** *** [get_embedding] never raises *)

Lemma get_embedding_raises text c (s : state W) e w :
  do_embeddings_create env text (world s) = (inl e, w) ->
  get_embedding env text (Some c) s
  = (Val None,
     Build_state w (log s ++ [embedding_call text; embedding_error e])
       (session_state s) (file_read s)).
Proof.
  intros H. unfold get_embedding, try_except.
  erewrite bind_raise by (by apply call_raises). mrun.
  by rewrite <- !app_assoc.
Qed.

Lemma get_embedding_returns text c (s : state W) v w :
  do_embeddings_create env text (world s) = (inr v, w) ->
  get_embedding env text (Some c) s
  = (Val (Some v),
     Build_state w (log s ++ [embedding_call text]) (session_state s) (file_read s)).
Proof.
  intros H. unfold get_embedding, try_except.
  erewrite bind_val by (by apply call_ok). by mrun.
Qed.

Lemma get_embedding_val text cl (s : state W) :
  exists embedding s', get_embedding env text cl s = (Val embedding, s').
Proof.
  destruct cl as [c|].
  - destruct (do_embeddings_create env text (world s)) as [[e|v] w] eqn:H.
    + erewrite get_embedding_raises by done. eauto.
    + erewrite get_embedding_returns by done. eauto.
  - unfold get_embedding. mrun. eauto.
Qed.

(** *** [get_answer_from_openai] never raises *)

Lemma get_answer_fails question context api_key (s : state W) e w :
  completion_fails env api_key question context (world s) e w ->
  exists calls,
    get_answer_from_openai env question context api_key s
    = (Val apology,
       Build_state w (log s ++ calls ++ [answer_error e]) (session_state s) (file_read s)).
Proof.
  intros [H | (w1 & H1 & H2)]; unfold get_answer_from_openai, try_except.
  - exists [OpenAI_new api_key].
    erewrite bind_raise by (by apply call_raises). mrun.
    by rewrite <- !app_assoc.
  - exists [OpenAI_new api_key; completion_call question context].
    erewrite bind_val by (by apply call_ok).
    erewrite call_raises by done. mrun.
    by rewrite <- !app_assoc.
Qed.

Lemma get_answer_returns question context api_key (s : state W) w1 answer w :
  do_OpenAI env api_key (world s) = (inr tt, w1) ->
  do_chat_completions env (completion_messages question context) w1 = (inr answer, w) ->
  get_answer_from_openai env question context api_key s
  = (Val answer,
     Build_state w (log s ++ [OpenAI_new api_key; completion_call question context])
       (session_state s) (file_read s)).
Proof.
  intros H1 H2. unfold get_answer_from_openai, try_except.
  erewrite bind_val by (by apply call_ok).
  erewrite call_ok by done. mrun.
  by rewrite <- !app_assoc.
Qed.

Lemma get_answer_val question context api_key (s : state W) :
  exists answer s',
    get_answer_from_openai env question context api_key s = (Val answer, s')
    /\ session_state s' = session_state s
    /\ exists calls, log s' = log s ++ OpenAI_new api_key :: calls.
Proof.
  destruct (do_OpenAI env api_key (world s)) as [[e|[]] w1] eqn:H1.
  - unfold get_answer_from_openai, try_except.
    erewrite bind_raise by (by apply call_raises). mrun.
    do 2 eexists. split; [done|]. split; [done|].
    eexists. by rewrite <- app_assoc.
  - destruct (do_chat_completions env (completion_messages question context) w1)
      as [[e|answer] w] eqn:H2.
    + unfold get_answer_from_openai, try_except.
      erewrite bind_val by (by apply call_ok).
      erewrite call_raises by done. mrun.
      do 2 eexists. split; [done|]. split; [done|].
      eexists. by rewrite <- !app_assoc.
    + erewrite get_answer_returns by done.
      do 2 eexists. split; [done|]. split; [done|]. by eexists.
Qed.

End Gateways.

(** ** The chat handler *)

Section Chat.
Context {W : Type} (env : Env W).

Lemma user_turn_run prompt (s : state W) ms :
  messages (session_state s) = Some ms ->
  user_turn prompt s
  = (Val tt,
     Build_state (world s) (log s ++ [st_chat_message (py "user"); st_markdown prompt])
       {| messages := Some (ms ++ [user_message prompt]);
          text_cache := text_cache (session_state s) |}
       (file_read s)).
Proof.
  intros H. unfold user_turn. mrun. rewrite H. mrun.
  by rewrite <- !app_assoc.
Qed.

Lemma asked_eq prompt (s : state W) :
  user_turn prompt (snd (show_history s)) = (Val tt, asked prompt s)
  /\ asked prompt s
     = Build_state (world s)
         (log s ++ history_events (default [] (messages (session_state s)))
            ++ [st_chat_message (py "user"); st_markdown prompt])
         {| messages := Some (default [] (messages (session_state s)) ++ [user_message prompt]);
            text_cache := text_cache (session_state s) |}
         (file_read s).
Proof.
  assert (Hrun : user_turn prompt (snd (show_history s))
    = (Val tt,
       Build_state (world s)
         (log s ++ history_events (default [] (messages (session_state s)))
            ++ [st_chat_message (py "user"); st_markdown prompt])
         {| messages := Some (default [] (messages (session_state s)) ++ [user_message prompt]);
            text_cache := text_cache (session_state s) |}
         (file_read s))).
  { rewrite show_history_run. simpl.
    erewrite user_turn_run by done. simpl. by rewrite <- !app_assoc. }
  unfold asked. by rewrite Hrun.
Qed.

Lemma chat_section_configured cfg prompt uploaded_file index_name pcl ecl (s : state W) :
  prompt <> [] -> configured cfg = true ->
  chat_section env cfg (Some prompt) uploaded_file index_name pcl ecl s
  = assistant_turn env cfg prompt uploaded_file index_name pcl ecl (asked prompt s).
Proof.
  intros Hp Hcfg. unfold chat_section.
  erewrite bind_val by apply show_history_run.
  destruct prompt as [|c prompt]; [done|]. rewrite Hcfg.
  destruct (asked_eq (c :: prompt) s) as [Hrun _].
  rewrite show_history_run in Hrun. simpl in Hrun.
  by erewrite bind_val by apply Hrun.
Qed.

Lemma answer_turn_fails cfg prompt context (s : state W) ms e w :
  messages (session_state s) = Some ms ->
  completion_fails env (openai_api_key cfg) prompt context (world s) e w ->
  exists shown,
    answer_turn env cfg prompt context s
    = (Val tt,
       Build_state w (log s ++ shown ++ [answer_error e; st_markdown apology])
         {| messages := Some (ms ++ [assistant_message apology]);
            text_cache := text_cache (session_state s) |}
         (file_read s)).
Proof.
  intros Hms Hfail. unfold answer_turn.
  destruct (truthy context).
  - destruct (get_answer_fails env prompt context (openai_api_key cfg) s e w Hfail)
      as [calls Hrun].
    exists calls. mrun. rewrite Hrun. mrun. rewrite Hms.
    by rewrite <- !app_assoc.
  - set (s1 := Build_state (world s) (log s ++ [st_warning no_context_warning])
                 (session_state s) (file_read s)).
    destruct (get_answer_fails env prompt context (openai_api_key cfg) s1 e w Hfail)
      as [calls Hrun].
    exists (st_warning no_context_warning :: calls). mrun.
    fold s1. rewrite Hrun. mrun. rewrite Hms.
    by rewrite <- !app_assoc.
Qed.

(** C6: when the completion gateway raises, [get_answer_from_openai]
    returns the fixed apology instead of raising, and the chat handler
    ends normally: the error and the apology are shown, and the history is
    the old one followed by the user's turn and the apology as the
    assistant's turn. *)
Theorem completion_failure_recorded cfg prompt uploaded_file index_name
    pinecone_client openai_embedding_client (s : state W) context s2 e w :
  prompt <> [] ->
  configured cfg = true ->
  build_context env prompt uploaded_file index_name
    pinecone_client openai_embedding_client (asked prompt s) = (Val context, s2) ->
  completion_fails env (openai_api_key cfg) prompt context (world s2) e w ->
  (forall s3, world s3 = world s2 ->
     fst (get_answer_from_openai env prompt context (openai_api_key cfg) s3) = Val apology)
  /\ exists s',
      chat_section env cfg (Some prompt) uploaded_file index_name
        pinecone_client openai_embedding_client s = (Val tt, s')
      /\ messages (session_state s')
         = Some (default [] (messages (session_state s))
                   ++ [user_message prompt; assistant_message apology])
      /\ exists shown, log s' = shown ++ [answer_error e; st_markdown apology].
Proof.
  intros Hp Hcfg Hctx Hfail. split.
  - intros s3 Hw. rewrite <- Hw in Hfail.
    by destruct (get_answer_fails env prompt context _ s3 e w Hfail) as [calls ->].
  - rewrite chat_section_configured by done.
    unfold assistant_turn. erewrite bind_val by apply Hctx.
    pose proof (keeps_build_context env prompt uploaded_file index_name
                  pinecone_client openai_embedding_client (asked prompt s)) as Hkeep.
    rewrite Hctx in Hkeep. simpl in Hkeep.
    destruct (asked_eq prompt s) as [_ Hasked]. rewrite Hasked in Hkeep. simpl in Hkeep.
    destruct (answer_turn_fails cfg prompt context s2
                (default [] (messages (session_state s)) ++ [user_message prompt]) e w)
      as [shown Hrun]; [by rewrite Hkeep | done |].
    eexists. split; [apply Hrun|]. simpl. split.
    + by rewrite <- app_assoc.
    + exists (log s2 ++ shown). by rewrite <- app_assoc.
Qed.

Lemma build_context_embedding_fails prompt uploaded_file index_name pc oc
    (s : state W) names w1 w2 e w3 :
  do_list_indexes env (world s) = (inr names, w1) ->
  index_name ∈ names ->
  do_Index env index_name w1 = (inr tt, w2) ->
  do_embeddings_create env prompt w2 = (inl e, w3) ->
  build_context env prompt uploaded_file index_name (Some pc) (Some oc) s
  = (Val [],
     Build_state w3
       (log s ++ [st_chat_message (py "assistant"); list_indexes; Index_handle index_name;
                  embedding_call prompt; embedding_error e])
       (session_state s) (file_read s)).
Proof.
  intros Hlist Hin Hidx Hemb. unfold build_context, query_pinecone.
  erewrite bind_val by reflexivity.
  erewrite bind_val; cycle 1.
  { erewrite bind_val by (by apply call_ok).
    rewrite bool_decide_eq_true_2 by done.
    erewrite bind_val by (by apply call_ok).
    erewrite bind_val by (by apply get_embedding_raises).
    reflexivity. }
  simpl. unfold ret. by rewrite <- !app_assoc.
Qed.

End Chat.

(** ** The ingestion pipeline *)

Section Ingestion.
Context {W : Type} (env : Env W).

(** The loop only appends to the batch. *)
Lemma embed_loop_onto i texts mdl cl acc (s : state W) :
  embed_loop env i texts mdl cl acc s = onto acc (embed_loop env i texts mdl cl [] s).
Proof.
  revert i acc s. induction texts as [|text rest IH]; intros i acc s; simpl.
  - unfold ret. simpl. by rewrite app_nil_r.
  - destruct (get_embedding_val env text cl s) as (embedding & s1 & Hemb).
    rewrite !(bind_val _ _ _ _ _ Hemb).
    destruct (embedding_ok embedding).
    + unfold bind at 1 2 4 5. unfold call_total.
      destruct (do_time env (world s1)) as [t w]. simpl.
      unfold py_index. destruct (_ && _); [|done].
      destruct (mdl !! _) as [md|]; [|done]. unfold bind, ret. simpl.
      rewrite (IH _ (acc ++ _)), (IH _ [_]).
      destruct (embed_loop env (S i) rest mdl cl [] _) as [[vs| |] s2]; simpl; try done.
      by rewrite <- app_assoc.
    + unfold bind, ret. simpl. apply IH.
Qed.

(** The loop over [pre ++ post] is the loop over [pre] followed by the
    loop over [post]. *)
Lemma embed_loop_app i pre post mdl cl acc (s : state W) :
  embed_loop env i (pre ++ post) mdl cl acc s
  = bind (embed_loop env i pre mdl cl acc)
         (fun acc1 => embed_loop env (i + length pre) post mdl cl acc1) s.
Proof.
  revert i acc s. induction pre as [|text pre IH]; intros i acc s; simpl.
  - unfold bind, ret. by rewrite Nat.add_0_r.
  - destruct (get_embedding_val env text cl s) as (embedding & s1 & Hemb).
    rewrite !bind_assoc, !(bind_val _ _ _ _ _ Hemb), bind_assoc.
    apply bind_ext. intros vectors s2.
    rewrite IH. by replace (S i + length pre) with (i + S (length pre)) by lia.
Qed.

(** A chunk whose embedding call raises adds nothing to the batch and does
    not stop the loop: the chunks after it are embedded from the state the
    failure left. *)
Lemma embed_loop_after_failure i pre text post mdl c acc (s : state W) acc1 s1 e w :
  embed_loop env i pre mdl (Some c) acc s = (Val acc1, s1) ->
  do_embeddings_create env text (world s1) = (inl e, w) ->
  let s2 := Build_state w (log s1 ++ [embedding_call text; embedding_error e])
              (session_state s1) (file_read s1) in
  embed_loop env i (pre ++ text :: post) mdl (Some c) acc s
  = embed_loop env (S (i + length pre)) post mdl (Some c) acc1 s2
  /\ forall vs s3,
       embed_loop env (S (i + length pre)) post mdl (Some c) [] s2 = (Val vs, s3) ->
       embed_loop env i (pre ++ text :: post) mdl (Some c) acc s = (Val (acc1 ++ vs), s3).
Proof.
  intros Hpre Hemb s2.
  assert (Heq : embed_loop env i (pre ++ text :: post) mdl (Some c) acc s
                = embed_loop env (S (i + length pre)) post mdl (Some c) acc1 s2).
  { rewrite embed_loop_app. erewrite bind_val by apply Hpre. simpl.
    erewrite bind_val by (by apply get_embedding_raises). simpl.
    by erewrite bind_val by reflexivity. }
  split; [done|].
  intros vs s3 Hpost. rewrite Heq, embed_loop_onto, Hpost. done.
Qed.

(** When every embedding call raises, no vector survives. *)
Lemma embed_loop_all_fail i texts mdl c (s : state W) :
  (forall t w, exists e w', do_embeddings_create env t w = (inl e, w')) ->
  exists s', embed_loop env i texts mdl (Some c) [] s = (Val [], s').
Proof.
  intros Hfail. revert i s. induction texts as [|text rest IH]; intros i s; simpl.
  - by eexists.
  - destruct (Hfail text (world s)) as (e & w & Hemb).
    erewrite bind_val by (by apply get_embedding_raises). simpl.
    erewrite bind_val by reflexivity. apply IH.
Qed.

Lemma upsert_batch_fails index_name vs (s : state W) e w :
  vs <> [] ->
  do_upsert env index_name vs (world s) = (inl e, w) ->
  upsert_batch env index_name vs s
  = (Val false,
     Build_state w (log s ++ [index_upsert index_name vs; upsert_error e])
       (session_state s) (file_read s)).
Proof.
  intros Hne Hup. unfold upsert_batch. destruct vs as [|v vs]; [done|]. simpl.
  unfold try_except. erewrite bind_raise by (by apply call_raises). mrun.
  by rewrite <- !app_assoc.
Qed.

(** C5, as the code has it: an empty batch and a failed batch call both
    make [upsert_to_pinecone] return [False]. They differ on the page and
    in the calls only: the empty batch makes no batch call and shows
    nothing more, the failed call is made and its error is shown. *)
Theorem empty_batch_and_failed_upsert fuel index_name texts mdl c ecl
    (s : state W) s1 vs s2 :
  provision_index env fuel index_name s = (Val tt, s1) ->
  embed_loop env 0 texts mdl ecl [] s1 = (Val vs, s2) ->
  (vs = [] ->
     upsert_to_pinecone env fuel index_name texts mdl (Some c) ecl s = (Val false, s2))
  /\ (forall e w,
        vs <> [] ->
        do_upsert env index_name vs (world s2) = (inl e, w) ->
        upsert_to_pinecone env fuel index_name texts mdl (Some c) ecl s
        = (Val false,
           Build_state w (log s2 ++ [index_upsert index_name vs; upsert_error e])
             (session_state s2) (file_read s2))).
Proof.
  intros Hprov Hloop. unfold upsert_to_pinecone.
  erewrite bind_val by apply Hprov. erewrite bind_val by apply Hloop.
  split.
  - by intros ->.
  - intros e w Hne Hup. by apply upsert_batch_fails.
Qed.

End Ingestion.

(** C5 as stated fails: with the embedding endpoint down the batch is
    empty, with the index refusing the batch the call fails, and the
    value returned is [False] both times. *)
Lemma empty_batch_returns_as_failed_upsert :
  upsert_to_pinecone (scripted deaf) 0 the_index [py "apple"]
    (metadata_list (py "a.txt") [py "apple"]) (Some a_client) (Some a_client) fresh
  = (Val false,
     Build_state tt
       [list_indexes; Index_handle the_index;
        embedding_call (py "apple"); embedding_error (ServiceError (py "timeout"))]
       (session_state fresh) false)
  /\ upsert_to_pinecone (scripted full) 0 the_index [py "apple"]
       (metadata_list (py "a.txt") [py "apple"]) (Some a_client) (Some a_client) fresh
     = (Val false,
        Build_state tt
          [list_indexes; Index_handle the_index;
           embedding_call (py "apple"); time_time;
           index_upsert the_index [chunk_vector 0];
           upsert_error (ServiceError (py "quota"))]
          (session_state fresh) false).
Proof. split; by vm_compute. Qed.

(** C4 as stated fails: with the embedding endpoint down, the question
    is still sent to the completion endpoint, with an empty context. *)
Lemma completion_called_after_embedding_failure :
  sw_embedding deaf (py "Halo") = inl (ServiceError (py "timeout"))
  /\ chat_section (scripted deaf) full_config (Some (py "Halo")) None the_index
       (Some a_client) (Some a_client) fresh
     = (Val tt,
        Build_state tt
          [st_chat_message (py "user"); st_markdown (py "Halo");
           st_chat_message (py "assistant");
           list_indexes; Index_handle the_index;
           embedding_call (py "Halo"); embedding_error (ServiceError (py "timeout"));
           st_warning no_context_warning;
           OpenAI_new (py "sk-1"); completion_call (py "Halo") [];
           st_markdown (py "Jawaban.")]
          {| messages := Some [user_message (py "Halo"); assistant_message (py "Jawaban.")];
             text_cache := None |}
          false).
Proof. split; by vm_compute. Qed.

(** ** Context reconstruction *)

Section Context_texts.
Context {W : Type}.

(** With the file cached: a [line] within the cached lines wins. *)
Lemma cached_line_valid all_lines mt acc (s : state W) z l :
  m_metadata mt !! py "line" = Some (PInt z) ->
  (0 <= z < Z.of_nat (length all_lines))%Z ->
  all_lines !! Z.to_nat z = Some l ->
  cached_line all_lines mt acc s = (Val (acc ++ [PStr l]), s).
Proof.
  intros Hline Hz Hl. unfold cached_line, try_except, py_index. rewrite Hline.
  replace (z <? Z.of_nat (length all_lines))%Z with true by lia.
  replace (z <? 0)%Z with false by lia.
  replace ((0 <=? z)%Z && (z <? Z.of_nat (length all_lines))%Z) with true by lia.
  by rewrite Hl.
Qed.

(** With the file cached: without a [line] within reach, [text] is used. *)
Lemma cached_line_text all_lines mt acc (s : state W) v :
  (m_metadata mt !! py "line" = None
   \/ exists z, m_metadata mt !! py "line" = Some (PInt z)
               /\ (Z.of_nat (length all_lines) <= z)%Z) ->
  m_metadata mt !! py "text" = Some v ->
  cached_line all_lines mt acc s = (Val (acc ++ [v]), s).
Proof.
  intros Hline Htext. unfold cached_line, try_except, text_fallback.
  destruct Hline as [-> | (z & -> & Hz)].
  - by rewrite Htext.
  - replace (z <? Z.of_nat (length all_lines))%Z with false by lia.
    by rewrite Htext.
Qed.

(** With the file cached: without either, the match adds nothing. *)
Lemma cached_line_nothing all_lines mt acc (s : state W) :
  (m_metadata mt !! py "line" = None
   \/ exists z, m_metadata mt !! py "line" = Some (PInt z)
               /\ (Z.of_nat (length all_lines) <= z)%Z) ->
  m_metadata mt !! py "text" = None ->
  cached_line all_lines mt acc s = (Val acc, s).
Proof.
  intros Hline Htext. unfold cached_line, try_except, text_fallback.
  destruct Hline as [-> | (z & -> & Hz)].
  - by rewrite Htext.
  - replace (z <? Z.of_nat (length all_lines))%Z with false by lia.
    by rewrite Htext.
Qed.

(** Without the file cached: [text], or else the record id. *)
Lemma reconstruct_without_cache uploaded_file (rs : list Match) (s : state W) :
  cache_entry uploaded_file (session_state s) = None ->
  rs <> [] ->
  reconstruct_context uploaded_file rs s = join_values [NL] (map text_or_id rs) s.
Proof.
  intros Hcache Hrs. unfold reconstruct_context.
  destruct rs as [|mt rs]; [done|]. simpl. mrun. by rewrite Hcache.
Qed.

(** The round trip holds for a file whose lines are all trimmed and none
    blank: the cached line of a chunk's [line] is the chunk. *)
Lemma round_trip_clean_file file_content name k t md mt acc (s : state W) :
  Forall (fun line => strip line = line /\ line <> []) (split NL file_content) ->
  texts file_content !! k = Some t ->
  metadata_list name (texts file_content) !! k = Some md ->
  m_metadata mt = md ->
  cached_line (split NL file_content) mt acc s = (Val (acc ++ [PStr t]), s).
Proof.
  intros Hclean Ht Hmd Hmt.
  assert (Hsame : texts file_content = split NL file_content).
  { rewrite texts_filter. induction Hclean as [|line ls [Hs Hne] _ IH]; [done|].
    rewrite filter_cons_True by (by rewrite <- strip_nil, Hs).
    simpl. by rewrite Hs, IH. }
  rewrite Hsame in Ht.
  eapply cached_line_valid.
  - rewrite Hmt. by eapply metadata_list_line.
  - apply lookup_lt_Some in Ht. lia.
  - by rewrite Nat2Z.id.
Qed.

End Context_texts.

(** C8, on a match that has neither a usable [line] nor a [text]: with
    the file cached the match adds nothing to the context, where without
    the cache the record id is used. *)
Theorem no_placeholder_when_cached :
  m_metadata stale_match !! py "text" = None
  /\ cache_entry (Some fruit_file) (session_state fruit_cached) = Some fruit_text
  /\ cached_line (split NL fruit_text) stale_match [] fruit_cached = (Val [], fruit_cached)
  /\ fst (reconstruct_context (Some fruit_file) [stale_match] fruit_cached) = Val []
  /\ fst (reconstruct_context (Some fruit_file) [stale_match] fresh)
     = Val (m_id stale_match).
Proof. repeat split; by vm_compute. Qed.

(** ** The theorems at work on the scripted worlds *)

Lemma question_without_configuration_witness :
  openai_api_key keyless_config = []
  /\ chat_section (scripted calm) keyless_config (Some (py "Halo")) None the_index
       None None fresh
     = (Val tt,
        Build_state tt
          [st_chat_message (py "user"); st_markdown (py "Halo"); st_error config_error]
          {| messages := Some [user_message (py "Halo")]; text_cache := None |}
          false).
Proof.
  split; [reflexivity|].
  apply (question_without_configuration (scripted calm) keyless_config (py "Halo")
           None the_index None None fresh).
  - by vm_compute.
  - by left.
Defined.

Lemma query_unknown_index_witness :
  query_pinecone (scripted calm) (py "other") (py "Halo") 3
    (Some a_client) (Some a_client) fresh
  = (Val [],
     Build_state tt
       [list_indexes; st_warning (py "Indeks 'other' tidak ditemukan.")]
       (session_state fresh) false).
Proof.
  apply (query_unknown_index (scripted calm) (py "other") (py "Halo") 3
           (Some a_client) (Some a_client) fresh [the_index] tt).
  - reflexivity.
  - apply (bool_decide_unpack _). by vm_compute.
Defined.

Lemma completion_failure_recorded_witness :
  sw_completion mute = inl (ServiceError (py "overloaded"))
  /\ messages (session_state (snd
       (chat_section (scripted mute) full_config (Some (py "Halo")) None the_index
          (Some a_client) (Some a_client) fresh)))
     = Some [user_message (py "Halo"); assistant_message apology].
Proof.
  split; [reflexivity|].
  destruct (completion_failure_recorded (scripted mute) full_config (py "Halo")
              None the_index (Some a_client) (Some a_client) fresh []
              (snd (build_context (scripted mute) (py "Halo") None the_index
                      (Some a_client) (Some a_client) (asked (py "Halo") fresh)))
              (ServiceError (py "overloaded")) tt)
    as [_ (s' & Hrun & Hms & _)].
  - by vm_compute.
  - reflexivity.
  - by vm_compute.
  - right. exists tt. split; reflexivity.
  - rewrite Hrun. exact Hms.
Defined.

Lemma empty_batch_and_failed_upsert_witness :
  upsert_to_pinecone (scripted deaf) 0 the_index [py "apple"]
    (metadata_list (py "a.txt") [py "apple"]) (Some a_client) (Some a_client) fresh
  = (Val false,
     Build_state tt
       [list_indexes; Index_handle the_index;
        embedding_call (py "apple"); embedding_error (ServiceError (py "timeout"))]
       (session_state fresh) false).
Proof.
  refine (proj1 (empty_batch_and_failed_upsert (scripted deaf) 0 the_index [py "apple"]
                   (metadata_list (py "a.txt") [py "apple"]) a_client (Some a_client)
                   fresh
                   (Build_state tt [list_indexes; Index_handle the_index]
                      (session_state fresh) false)
                   [] _ _ _) _).
  - by vm_compute.
  - by vm_compute.
  - reflexivity.
Defined.

(** ** More on the splitting policy *)

Lemma split_cons sep s : exists l ls, split sep s = l :: ls.
Proof.
  destruct s as [|c r]; simpl; [by eexists _, _|].
  destruct (c =? sep)%N; [by eexists _, _|].
  destruct (split sep r); by eexists _, _.
Qed.

Lemma split_app sep a b :
  split sep (a ++ sep :: b) = split sep a ++ split sep b.
Proof.
  induction a as [|c r IH]; simpl.
  - by rewrite N.eqb_refl.
  - destruct (c =? sep)%N; [by rewrite IH|].
    rewrite IH. by destruct (split_cons sep r) as (l & ls & ->).
Qed.

Lemma split_no_sep sep s l : l ∈ split sep s -> sep ∉ l.
Proof.
  revert l. induction s as [|c r IH]; intros l; simpl.
  - intros ->%list_elem_of_singleton. apply not_elem_of_nil.
  - destruct (c =? sep)%N eqn:Hc.
    + intros [-> | Hl]%elem_of_cons; [apply not_elem_of_nil | by apply IH].
    + destruct (split sep r) as [|l0 ls] eqn:Hsplit.
      * intros ->%list_elem_of_singleton.
        intros [-> | H]%elem_of_cons; [by rewrite N.eqb_refl in Hc | by inversion H].
      * intros [-> | Hl]%elem_of_cons.
        -- intros [-> | H]%elem_of_cons; [by rewrite N.eqb_refl in Hc|].
           revert H. apply IH. by left.
        -- apply IH. by right.
Qed.

Lemma lstrip_suffix s : exists ws, s = ws ++ lstrip s.
Proof.
  induction s as [|c r [ws IH]]; simpl; [by exists []|].
  destruct (isspace c); [|by exists []].
  exists (c :: ws). simpl. by rewrite <- IH.
Qed.

(** A string that does not start with white space. *)
Lemma lstrip_starts s c r : lstrip s = c :: r -> isspace c = false.
Proof.
  induction s as [|c0 r0 IH]; simpl; [done|].
  destruct (isspace c0) eqn:Hc; [done|]. by intros [= <- _].
Qed.

Lemma lstrip_fixed s :
  (forall c r, s = c :: r -> isspace c = false) -> lstrip s = s.
Proof.
  destruct s as [|c r]; simpl; [done|]. intros H. by rewrite (H c r).
Qed.

Lemma rstrip_prefix s : exists ws, s = rstrip s ++ ws.
Proof.
  unfold rstrip. destruct (lstrip_suffix (rev s)) as [ws H].
  exists (rev ws). rewrite <- rev_app_distr, <- H. by rewrite rev_involutive.
Qed.

Lemma strip_fixed t :
  (forall c r, t = c :: r -> isspace c = false) ->
  (forall c r, rev t = c :: r -> isspace c = false) ->
  strip t = t.
Proof.
  intros Hh Hl. unfold strip, rstrip.
  rewrite (lstrip_fixed t Hh), (lstrip_fixed (rev t) Hl). apply rev_involutive.
Qed.

Lemma strip_ends s :
  (forall c r, strip s = c :: r -> isspace c = false)
  /\ (forall c r, rev (strip s) = c :: r -> isspace c = false).
Proof.
  split.
  - intros c r Hs. unfold strip in Hs.
    destruct (rstrip_prefix (lstrip s)) as [ws Hws]. rewrite Hs in Hws.
    by apply (lstrip_starts s c (r ++ ws)).
  - intros c r Hs. unfold strip, rstrip in Hs. rewrite rev_involutive in Hs.
    by apply lstrip_starts in Hs.
Qed.

Lemma strip_sub s x : x ∈ strip s -> x ∈ s.
Proof.
  unfold strip. intros Hx.
  destruct (rstrip_prefix (lstrip s)) as [ws Hws].
  destruct (lstrip_suffix s) as [ws' Hws'].
  rewrite Hws'. apply elem_of_app. right.
  rewrite Hws. apply elem_of_app. by left.
Qed.

Lemma last_head_rev {A} (l : list A) : last l = head (rev l).
Proof.
  induction l as [|x l' _] using rev_ind; [done|].
  by rewrite last_snoc, rev_app_distr.
Qed.

(** X1: every chunk is trimmed and holds no newline: trimming it again
    changes nothing, and its first and last characters are not white
    space. *)
Theorem texts_are_trimmed (file_content t : pystr) :
  t ∈ texts file_content ->
  strip t = t
  /\ (NL ∉ t)
  /\ (forall c, head t = Some c \/ last t = Some c -> isspace c = false).
Proof.
  unfold texts. intros Ht.
  apply list_elem_of_fmap in Ht as (line & -> & Hline).
  apply list_elem_of_filter in Hline as [_ Hin].
  destruct (strip_ends line) as [Hh Hl].
  split; [by apply strip_fixed|]. split.
  - intros Hnl%strip_sub. by apply (split_no_sep NL file_content line).
  - intros c [Hc | Hc].
    + destruct (strip line) as [|c0 r] eqn:Hs; [done|].
      simpl in Hc. injection Hc as ->. by apply (Hh c r).
    + rewrite last_head_rev in Hc.
      destruct (rev (strip line)) as [|c0 r] eqn:Hs; [done|].
      simpl in Hc. injection Hc as ->. by apply (Hl c r).
Qed.

(** X2: the chunks of two texts put one after the other, with a newline
    between them, are the chunks of the first followed by the chunks of
    the second. *)
Theorem texts_app (a b : pystr) :
  texts (a ++ NL :: b) = texts a ++ texts b.
Proof.
  unfold texts. by rewrite split_app, filter_app, map_app.
Qed.

(** X3: joining the lines of a text with newlines gives the text back. *)
Theorem join_split (s : pystr) :
  join [NL] (split NL s) = s.
Proof.
  induction s as [|c r IH]; simpl; [done|].
  destruct (split_cons NL r) as (l & ls & Hsplit). rewrite Hsplit in *.
  destruct (c =? NL)%N eqn:Hc.
  - apply N.eqb_eq in Hc as ->. simpl. by rewrite <- IH.
  - destruct ls as [|l' ls]; simpl in *; by rewrite <- IH.
Qed.

(** ** More on the ingestion pipeline *)

Section Ingestion_more.
Context {W : Type} (env : Env W).

Lemma py_index_nat {A} (l : list A) n a (s : state W) :
  l !! n = Some a -> py_index l (Z.of_nat n) s = (Val a, s).
Proof.
  intros Hl. unfold py_index. pose proof (lookup_lt_Some _ _ _ Hl) as Hn.
  assert (H1 : (Z.of_nat n <? 0)%Z = false) by lia.
  assert (H2 : (0 <=? Z.of_nat n)%Z = true) by lia.
  assert (H3 : (Z.of_nat n <? Z.of_nat (length l))%Z = true) by lia.
  rewrite H1, H2, H3. simpl. by rewrite Nat2Z.id, Hl.
Qed.

Lemma py_index_val {A} (l : list A) n a (s s' : state W) :
  py_index l (Z.of_nat n) s = (Val a, s') -> l !! n = Some a /\ s' = s.
Proof.
  unfold py_index.
  assert (H1 : (Z.of_nat n <? 0)%Z = false) by (apply Z.ltb_ge; lia). rewrite H1.
  destruct (_ && _); [|done]. rewrite Nat2Z.id.
  destruct (l !! n); [|done]. by intros [= -> ->].
Qed.

Lemma embedded_texts_app l l' :
  embedded_texts (l ++ l') = embedded_texts l ++ embedded_texts l'.
Proof. apply omap_app. Qed.

(** One pass of lines 68-72 for a chunk whose embedding was obtained. *)
Lemma chunk_appended (i : nat) (mdl : list metadata) (md : metadata)
    (acc : list vector_record) (embedding : option (list float)) (s : state W) t w :
  do_time env (world s) = (t, w) ->
  mdl !! i = Some md ->
  (t' <- call_total time_time (do_time env) ;;
   md' <- py_index mdl (Z.of_nat i) ;;
   ret (acc ++ [{| v_id := py "doc-" ++ repr_float env t' ++ py "-" ++ str_nat i;
                   v_values := default [] embedding;
                   v_metadata := md' |}])) s
  = (Val (acc ++ [{| v_id := py "doc-" ++ repr_float env t ++ py "-" ++ str_nat i;
                     v_values := default [] embedding;
                     v_metadata := md |}]),
     Build_state w (log s ++ [time_time]) (session_state s) (file_read s)).
Proof.
  intros Ht Hmd. unfold bind at 1, call_total. rewrite Ht.
  erewrite bind_val by (by apply py_index_nat). done.
Qed.

Lemma chunk_refused (i : nat) (mdl : list metadata)
    (acc : list vector_record) (embedding : option (list float)) (s : state W) t w :
  do_time env (world s) = (t, w) ->
  mdl !! i = None ->
  (t' <- call_total time_time (do_time env) ;;
   md' <- py_index mdl (Z.of_nat i) ;;
   ret (acc ++ [{| v_id := py "doc-" ++ repr_float env t' ++ py "-" ++ str_nat i;
                   v_values := default [] embedding;
                   v_metadata := md' |}])) s
  = (Raise (IndexError (py "list index out of range")),
     Build_state w (log s ++ [time_time]) (session_state s) (file_read s)).
Proof.
  intros Ht Hmd. unfold bind at 1, call_total. rewrite Ht.
  erewrite bind_raise; [done|]. unfold py_index.
  assert (H1 : (Z.of_nat i <? 0)%Z = false) by (apply Z.ltb_ge; lia). rewrite H1.
  destruct (_ && _); [|done]. by rewrite Nat2Z.id, Hmd.
Qed.

Lemma embed_loop_calls i texts mdl c acc (s : state W) :
  i + length texts <= length mdl ->
  exists vs s',
    embed_loop env i texts mdl (Some c) acc s = (Val vs, s')
    /\ embedded_texts (log s') = embedded_texts (log s) ++ texts.
Proof.
  revert i acc s. induction texts as [|text rest IH]; intros i acc s Hlen; simpl in *.
  - exists acc, s. by rewrite app_nil_r.
  - destruct (do_embeddings_create env text (world s)) as [[e|v] w] eqn:Hemb.
    + erewrite bind_val by (by apply get_embedding_raises). simpl.
      erewrite bind_val by reflexivity.
      edestruct (IH (S i) acc) as (vs & s' & -> & Hlog); [lia|].
      exists vs, s'. split; [done|]. rewrite Hlog. simpl.
      rewrite embedded_texts_app. simpl. by rewrite <- (app_assoc _ [text] rest).
    + erewrite bind_val by (by apply get_embedding_returns).
      destruct (embedding_ok (Some v)).
      * destruct (lookup_lt_is_Some_2 mdl i) as [md Hmd]; [lia|].
        set (s1 := Build_state w (log s ++ [embedding_call text])
                     (session_state s) (file_read s)).
        destruct (do_time env (world s1)) as [t w2] eqn:Ht.
        erewrite bind_val by (by eapply chunk_appended).
        edestruct (IH (S i)) as (vs & s' & -> & Hlog); [lia|].
        exists vs, s'. split; [done|]. rewrite Hlog. simpl.
        rewrite !embedded_texts_app. simpl.
        by rewrite app_nil_r, <- (app_assoc _ [text] rest).
      * erewrite bind_val by reflexivity.
        edestruct (IH (S i) acc) as (vs & s' & -> & Hlog); [lia|].
        exists vs, s'. split; [done|]. rewrite Hlog. simpl.
        rewrite embedded_texts_app. simpl. by rewrite <- (app_assoc _ [text] rest).
Qed.

Lemma embed_loop_shape i texts mdl cl (s : state W) vs s' :
  embed_loop env i texts mdl cl [] s = (Val vs, s') ->
  exists ks,
    sublist ks (seq i (length texts))
    /\ Forall2 (vector_of env mdl) vs ks.
Proof.
  revert i s vs s'. induction texts as [|text rest IH]; intros i s vs s';
    cbn [embed_loop length seq].
  - intros [= <- _]. exists []. split; [done | constructor].
  - destruct (get_embedding_val env text cl s) as (embedding & s1 & Hemb).
    rewrite (bind_val _ _ _ _ _ Hemb).
    destruct (embedding_ok embedding) eqn:Hok.
    + destruct (do_time env (world s1)) as [t w] eqn:Ht.
      destruct (mdl !! i) as [md|] eqn:Hmd.
      * erewrite bind_val by (by eapply chunk_appended).
        rewrite embed_loop_onto.
        destruct (embed_loop env (S i) rest mdl cl [] _) as [[vs'| |] s4] eqn:Hrest;
          simpl; try done.
        intros [= <- _].
        destruct (IH _ _ _ _ Hrest) as (ks & Hsub & Hall).
        exists (i :: ks). split; [by apply sublist_skip|].
        constructor; [|done]. repeat split; simpl.
        -- destruct embedding as [[|x v]|]; done.
        -- done.
        -- by exists t.
      * erewrite bind_raise; [done|]. by eapply chunk_refused.
    + erewrite bind_val by reflexivity. intros Hrest.
      destruct (IH _ _ _ _ Hrest) as (ks & Hsub & Hall).
      exists ks. split; [by apply sublist_cons | done].
Qed.

(** X4: with a client and the metadata of every chunk at hand, the loop
    always returns a batch, and it has sent every chunk to the embedding
    endpoint, once each and in order, whatever calls failed. *)
Theorem every_chunk_is_embedded i texts mdl c acc (s : state W) :
  i + length texts <= length mdl ->
  exists vs s',
    embed_loop env i texts mdl (Some c) acc s = (Val vs, s')
    /\ embedded_texts (log s') = embedded_texts (log s) ++ texts.
Proof. apply embed_loop_calls. Qed.

(** X5: every vector of the batch belongs to one chunk: it carries a
    non-empty embedding, the metadata of that chunk and an id ending in the
    chunk's ordinal; the chunks of the batch are in upload order, each at
    most once. *)
Theorem batch_follows_chunks i texts mdl cl (s : state W) vs s' :
  embed_loop env i texts mdl cl [] s = (Val vs, s') ->
  exists ks,
    sublist ks (seq i (length texts))
    /\ Forall2 (vector_of env mdl) vs ks.
Proof. apply embed_loop_shape. Qed.

End Ingestion_more.

(** *** The ids of a batch *)

Lemma py_cons a (str : string) : py (String a str) = N_of_ascii a :: py str.
Proof. done. Qed.

Lemma py_inj (s1 s2 : string) : py s1 = py s2 -> s1 = s2.
Proof.
  revert s2. induction s1 as [|a s1 IH]; intros [|b s2]; try done.
  rewrite !py_cons. intros [= Hab Hs].
  f_equal; [|by apply IH].
  by rewrite <- (ascii_N_embedding a), <- (ascii_N_embedding b), Hab.
Qed.

Lemma str_nat_inj k k' : str_nat k = str_nat k' -> k = k'.
Proof.
  unfold str_nat. intros H%py_inj.
  apply (f_equal NilEmpty.uint_of_string) in H. rewrite !NilEmpty.usu in H.
  injection H as H. apply (f_equal Nat.of_uint) in H.
  by rewrite !Unsigned.of_to in H.
Qed.

(** The digits of an ordinal hold no dash. *)
Lemma str_nat_no_dash k : 45%N ∉ str_nat k.
Proof.
  unfold str_nat. generalize (Nat.to_uint k). intros d.
  induction d; simpl NilEmpty.string_of_uint; rewrite ?py_cons;
    [apply not_elem_of_nil | apply not_elem_of_cons; split; [by vm_compute | done]..].
Qed.

Lemma before_first {A} (c : A) (x x' r r' : list A) :
  c ∉ x -> c ∉ x' -> x ++ c :: r = x' ++ c :: r' -> x = x'.
Proof.
  revert x'. induction x as [|a x IH]; intros [|a' x'] Hx Hx'; simpl; try done.
  - intros [= <- _]. destruct Hx'. by left.
  - intros [= -> _]. destruct Hx. by left.
  - intros [= <- H]. f_equal. apply IH; [| |done].
    + intros Hc. apply Hx. by right.
    + intros Hc. apply Hx'. by right.
Qed.

Lemma after_last {A} (c : A) (a a' d d' : list A) :
  c ∉ d -> c ∉ d' -> a ++ c :: d = a' ++ c :: d' -> d = d'.
Proof.
  intros Hd Hd' H. apply (f_equal (@rev A)) in H.
  rewrite !rev_app_distr in H. simpl in H. rewrite <- !app_assoc in H. simpl in H.
  apply before_first in H.
  - by rewrite <- (rev_involutive d), H, rev_involutive.
  - intros Hc. apply Hd. by apply list_elem_of_In, in_rev, list_elem_of_In.
  - intros Hc. apply Hd'. by apply list_elem_of_In, in_rev, list_elem_of_In.
Qed.

Lemma id_ordinal (t t' : pystr) k k' :
  py "doc-" ++ t ++ py "-" ++ str_nat k = py "doc-" ++ t' ++ py "-" ++ str_nat k' ->
  k = k'.
Proof.
  intros H%app_inv_head. apply str_nat_inj.
  by apply (after_last 45%N t t'); [apply str_nat_no_dash..|].
Qed.

(** X6: the ids of one batch are pairwise distinct. *)
Theorem batch_ids_distinct {W} (env : Env W) i texts mdl cl (s : state W) vs s' :
  embed_loop env i texts mdl cl [] s = (Val vs, s') ->
  NoDup (map v_id vs).
Proof.
  intros (ks & Hsub & Hall)%embed_loop_shape.
  assert (Hnd : NoDup ks).
  { eapply sublist_NoDup; [apply NoDup_seq | done]. }
  clear Hsub. induction Hall as [|v k vs ks Hv Hall IH]; [constructor|].
  apply NoDup_cons in Hnd as [Hk Hnd]. simpl. apply NoDup_cons. split; [|by apply IH].
  intros (v' & Hid & Hin)%list_elem_of_fmap.
  apply list_elem_of_lookup in Hin as [j Hj].
  destruct (Forall2_lookup_l _ _ _ _ _ Hall Hj) as (k' & Hk' & Hv').
  destruct Hv as (_ & _ & t & Ht). destruct Hv' as (_ & _ & t' & Ht').
  rewrite Ht, Ht' in Hid. apply id_ordinal in Hid as ->.
  apply Hk. by eapply list_elem_of_lookup_2.
Qed.


(** *** What the pipeline returns and when *)

Section Ingestion_runs.
Context {W : Type} (env : Env W).

Lemma upsert_batch_val index_name vs (s : state W) :
  exists b s', upsert_batch env index_name vs s = (Val b, s').
Proof.
  unfold upsert_batch. destruct (truthy vs); [|by eexists _, _].
  unfold try_except, bind, call.
  destruct (do_upsert env index_name vs (world s)) as [[e|[]] w]; simpl;
    by eexists _, _.
Qed.

Lemma upsert_batch_ok index_name vs (s : state W) w :
  vs <> [] ->
  do_upsert env index_name vs (world s) = (inr tt, w) ->
  upsert_batch env index_name vs s
  = (Val true,
     Build_state w
       (log s ++ [index_upsert index_name vs; upsert_success index_name (length vs)])
       (session_state s) (file_read s)).
Proof.
  intros Hne Hup. unfold upsert_batch, upsert_success.
  destruct vs as [|v vs]; [done|]. simpl.
  unfold try_except.
  erewrite bind_val by (apply call_ok; exact Hup). mrun.
  by rewrite <- !app_assoc.
Qed.

(** X7: [upsert_to_pinecone] returns [True] only when the batch call was
    made, with a batch that is not empty, and returned: the run then ends
    with that call and the message that counts the vectors. *)
Theorem true_means_uploaded fuel index_name texts mdl pcl ecl (s : state W) s' :
  upsert_to_pinecone env fuel index_name texts mdl pcl ecl s = (Val true, s') ->
  exists vs before,
    vs <> []
    /\ log s' = before ++ [index_upsert index_name vs; upsert_success index_name (length vs)].
Proof.
  unfold upsert_to_pinecone. destruct pcl as [c|]; [|by mrun].
  unfold bind at 1.
  destruct (provision_index env fuel index_name s) as [[[]| |] s1]; [|done..].
  unfold bind at 1.
  destruct (embed_loop env 0 texts mdl ecl [] s1) as [[vs| |] s2]; [|done..].
  destruct vs as [|v vs]; [done|].
  destruct (do_upsert env index_name (v :: vs) (world s2)) as [[e|[]] w] eqn:Hup.
  - by erewrite upsert_batch_fails.
  - erewrite upsert_batch_ok by done. intros [= <-].
    by exists (v :: vs), (log s2).
Qed.

Lemma wait_never index_name :
  (forall w, exists w', do_describe_index env index_name w = (inr false, w')) ->
  forall fuel (s : state W), fst (wait_ready env fuel index_name s) = OutOfFuel.
Proof.
  intros Hnever fuel. induction fuel as [|fuel IH]; intros s; simpl; [done|].
  destruct (Hnever (world s)) as [w Hd].
  erewrite bind_val by (by apply call_ok). cbv beta iota.
  erewrite bind_val by reflexivity. apply IH.
Qed.

(** X8: when the index has to be created and never reports ready, the
    readiness poll has no end: whatever the fuel, the run of
    [upsert_to_pinecone] is still polling when the fuel is spent. *)
Theorem poll_without_end index_name texts mdl c ecl (s : state W) names w1 w2 :
  do_list_indexes env (world s) = (inr names, w1) ->
  index_name ∉ names ->
  do_create_index env index_name w1 = (inr tt, w2) ->
  (forall w, exists w', do_describe_index env index_name w = (inr false, w')) ->
  forall fuel,
    fst (upsert_to_pinecone env fuel index_name texts mdl (Some c) ecl s) = OutOfFuel.
Proof.
  intros Hlist Hnot Hcreate Hnever fuel.
  unfold upsert_to_pinecone, provision_index.
  rewrite ?bind_assoc. erewrite bind_val by (by apply call_ok). cbv beta.
  rewrite bool_decide_eq_false_2 by done.
  rewrite ?bind_assoc. erewrite bind_val by reflexivity.
  rewrite ?bind_assoc. erewrite bind_val by (by apply call_ok).
  rewrite ?bind_assoc. unfold bind at 1.
  match goal with |- context [wait_ready env fuel index_name ?s0] =>
    pose proof (wait_never index_name Hnever fuel s0) as Hw;
    destruct (wait_ready env fuel index_name s0) as [[[]| |] s3] end;
    simpl in Hw; done.
Qed.

End Ingestion_runs.

(** *** The upload handler *)

Section Upload.
Context {W : Type} (env : Env W).

Lemma keeps_wait_ready fuel index_name : keeps_session (wait_ready env fuel index_name).
Proof. induction fuel as [|fuel IH]; simpl; [done|]. keeps. Qed.

Lemma keeps_embed_loop i texts mdl cl acc :
  keeps_session (embed_loop env i texts mdl cl acc).
Proof.
  revert i acc. induction texts as [|text rest IH]; intros i acc; simpl; [keeps|].
  pose proof (keeps_get_embedding env). keeps.
Qed.

Lemma keeps_upsert_to_pinecone fuel index_name texts mdl pcl ecl :
  keeps_session (upsert_to_pinecone env fuel index_name texts mdl pcl ecl).
Proof.
  unfold upsert_to_pinecone, provision_index, upsert_batch.
  pose proof keeps_wait_ready. pose proof keeps_embed_loop. keeps.
Qed.

Lemma keeps_read_decode f : keeps_session (read_decode (W:=W) f).
Proof. intros s. unfold read_decode. by destruct (file_read s). Qed.

(** X10: the ingestion pipeline never touches the session: whatever the
    upload handler does and however it ends, the chat history and the text
    cache are as they were. *)
Theorem upload_keeps_session fuel uploaded_file index_name button ocl pcl (s : state W) :
  session_state (snd (upload_section env fuel uploaded_file index_name button ocl pcl s))
  = session_state s.
Proof.
  revert s. change (keeps_session
    (upload_section env fuel uploaded_file index_name button ocl pcl)).
  unfold upload_section.
  pose proof keeps_upsert_to_pinecone. pose proof keeps_read_decode. keeps.
Qed.

Lemma read_decode_fresh (f : file) content (s : state W) :
  file_read s = false -> f_decoded f = inr content ->
  read_decode f s = (Val content, set_file_read true s).
Proof. intros Hs Hf. unfold read_decode. by rewrite Hs, Hf. Qed.

Lemma texts_blank content :
  Forall blank (split NL content) -> texts content = [].
Proof.
  intros Hall. rewrite texts_filter.
  induction Hall as [|line ls Hb _ IH]; [done|].
  by rewrite filter_cons_False by (by intros H).
Qed.

(** X11: a file made of blank lines only is not uploaded: the handler
    shows the warning and calls no service. *)
Theorem blank_file_uploads_nothing fuel f content index_name oc pc (s : state W) :
  file_read s = false ->
  f_decoded f = inr content ->
  Forall blank (split NL content) ->
  index_name <> [] ->
  upload_section env fuel (Some f) index_name true (Some oc) (Some pc) s
  = (Val tt,
     Build_state (world s)
       (log s ++ [st_warning (py "File tidak berisi teks yang dapat diproses.")])
       (session_state s) true).
Proof.
  intros Hs Hf Hblank Hidx. unfold upload_section.
  destruct index_name as [|c0 index_name]; [done|]. simpl.
  erewrite bind_val by (by apply read_decode_fresh).
  by rewrite (texts_blank content Hblank).
Qed.

Lemma metadata_list_length name (ts : list pystr) :
  length (metadata_list name ts) = length ts.
Proof. unfold metadata_list. apply length_imap. Qed.

(** X12: once the file is decoded and the index is at hand, the upload
    handler cannot raise: failed embeddings and a failed batch call are
    caught, and every chunk finds its metadata. *)
Theorem upload_returns_once_provisioned fuel f content index_name oc pc (s s1 : state W) :
  file_read s = false ->
  f_decoded f = inr content ->
  index_name <> [] ->
  provision_index env fuel index_name (set_file_read true s) = (Val tt, s1) ->
  exists s',
    upload_section env fuel (Some f) index_name true (Some oc) (Some pc) s = (Val tt, s').
Proof.
  intros Hs Hf Hidx Hprov. unfold upload_section.
  destruct index_name as [|c0 index_name]; [done|]. simpl.
  erewrite bind_val by (by apply read_decode_fresh).
  destruct (truthy (texts content)); [|by eexists].
  unfold upsert_to_pinecone.
  rewrite !bind_assoc. erewrite bind_val by apply Hprov.
  edestruct (embed_loop_calls env 0 (texts content)
               (metadata_list (f_name f) (texts content)) oc [] s1)
    as (vs & s2 & Hloop & _); [by rewrite metadata_list_length|].
  rewrite !bind_assoc. erewrite bind_val by apply Hloop.
  destruct (upsert_batch_val env (c0 :: index_name) vs s2) as (b & s3 & Hb).
  erewrite bind_val by apply Hb. by eexists.
Qed.

End Upload.

(** ** More on the query gateway *)

Section Query.
Context {W : Type} (env : Env W).

(** X13: once the index is listed and its handle taken, [query_pinecone]
    does not raise: with the question embedded, it returns the matches of
    the index as they are, asked for with [top_k], and when the query call
    raises it shows the error and returns no match. *)
Theorem query_returns_matches_or_nothing index_name query_text top_k pc oc
    (s : state W) names w1 w2 v w3 r w4 :
  do_list_indexes env (world s) = (inr names, w1) ->
  index_name ∈ names ->
  do_Index env index_name w1 = (inr tt, w2) ->
  do_embeddings_create env query_text w2 = (inr v, w3) ->
  v <> [] ->
  do_query env index_name v top_k w3 = (r, w4) ->
  query_pinecone env index_name query_text top_k (Some pc) (Some oc) s
  = (Val (match r with inl _ => [] | inr matches => matches end),
     Build_state w4
       (log s ++ [list_indexes; Index_handle index_name; embedding_call query_text;
                  index_query index_name v top_k]
          ++ match r with
             | inl e => [st_error (py "Gagal melakukan query Pinecone: " ++ str_exn e)]
             | inr _ => []
             end)
       (session_state s) (file_read s)).
Proof.
  intros Hlist Hin Hidx Hemb Hv Hq. unfold query_pinecone.
  erewrite bind_val by (by apply call_ok).
  rewrite bool_decide_eq_true_2 by done.
  erewrite bind_val by (by apply call_ok).
  erewrite bind_val by (by apply get_embedding_returns).
  destruct v as [|x v]; [done|]. simpl. unfold try_except.
  destruct r as [e|matches].
  - erewrite call_raises by done. mrun. by rewrite <- !app_assoc.
  - erewrite call_ok by done. mrun. by rewrite <- !app_assoc.
Qed.

End Query.

(** ** More on the chat handler *)

Section Chat_more.
Context {W : Type} (env : Env W).

(** X14: the listing of the indexes is not guarded: when it raises, the
    chat handler raises too, after the user's turn was recorded, so the
    history ends with a question that has no answer. *)
Theorem listing_failure_leaves_question_unanswered cfg prompt uploaded_file index_name
    pc ocl (s : state W) e w :
  prompt <> [] ->
  configured cfg = true ->
  do_list_indexes env (world s) = (inl e, w) ->
  chat_section env cfg (Some prompt) uploaded_file index_name (Some pc) ocl s
  = (Raise e,
     Build_state w
       (log s ++ history_events (default [] (messages (session_state s)))
          ++ [st_chat_message (py "user"); st_markdown prompt;
              st_chat_message (py "assistant"); list_indexes])
       {| messages := Some (default [] (messages (session_state s)) ++ [user_message prompt]);
          text_cache := text_cache (session_state s) |}
       (file_read s)).
Proof.
  intros Hp Hcfg Hlist. rewrite chat_section_configured by done.
  destruct (asked_eq prompt s) as [_ ->].
  unfold assistant_turn, build_context, query_pinecone.
  erewrite bind_raise; [done|].
  erewrite bind_val by reflexivity.
  erewrite bind_raise; [|erewrite bind_raise; [done|by apply call_raises]].
  unfold set_world, add_log. simpl. by rewrite <- !app_assoc.
Qed.

Lemma cached_line_val all_lines mt acc (s : state W) :
  exists out s',
    cached_line all_lines mt acc s = (Val (acc ++ out), s')
    /\ length out <= 1
    /\ world s' = world s /\ session_state s' = session_state s.
Proof.
  assert (Hkeep : forall v, exists out s',
    (Val (acc ++ [v]), s) = (Val (acc ++ out), s')
    /\ length out <= 1 /\ world s' = world s /\ session_state s' = session_state s).
  { intros v. exists [v], s. repeat split; simpl; lia. }
  assert (Hdrop : forall ev, exists out s',
    (Val acc, add_log ev s) = (Val (acc ++ out), s')
    /\ length out <= 1 /\ world s' = world s /\ session_state s' = session_state s).
  { intros ev. exists [], (add_log ev s). rewrite app_nil_r. repeat split; simpl; lia. }
  assert (Hskip : exists out s',
    (Val acc, s) = (Val (acc ++ out), s')
    /\ length out <= 1 /\ world s' = world s /\ session_state s' = session_state s).
  { exists [], s. rewrite app_nil_r. repeat split; simpl; lia. }
  unfold cached_line, try_except, text_fallback, py_index.
  destruct (m_metadata mt !! py "line") as [[z|str]|].
  - destruct (z <? Z.of_nat (length all_lines))%Z.
    + destruct (_ && _).
      * destruct (all_lines !! _) as [l|]; mrun; [apply Hkeep | apply Hdrop].
      * mrun. apply Hdrop.
    + destruct (m_metadata mt !! py "text") as [v|]; mrun; [apply Hkeep | apply Hskip].
  - mrun. apply Hdrop.
  - destruct (m_metadata mt !! py "text") as [v|]; mrun; [apply Hkeep | apply Hskip].
Qed.

Lemma cached_lines_val all_lines (rs : list Match) acc (s : state W) :
  exists out s',
    cached_lines all_lines rs acc s = (Val (acc ++ out), s')
    /\ length out <= length rs
    /\ world s' = world s /\ session_state s' = session_state s.
Proof.
  revert acc s. induction rs as [|mt rs IH]; intros acc s; simpl.
  - exists [], s. unfold ret. by rewrite app_nil_r.
  - destruct (cached_line_val all_lines mt acc s) as (out1 & s1 & Hrun & Hlen & Hw & Hss).
    erewrite bind_val by apply Hrun.
    destruct (IH (acc ++ out1) s1) as (out2 & s2 & -> & Hlen2 & Hw2 & Hss2).
    exists (out1 ++ out2), s2. rewrite app_assoc, length_app.
    repeat split; [lia|congruence..].
Qed.

(** X15: with the file cached, rebuilding the context lines never raises,
    whatever the metadata of the matches holds: every failure inside the
    loop is caught. Each match gives at most one line, and neither the
    world nor the session changes. *)
Theorem cached_lines_never_raise all_lines (rs : list Match) (s : state W) :
  exists out s',
    cached_lines all_lines rs [] s = (Val out, s')
    /\ length out <= length rs
    /\ world s' = world s /\ session_state s' = session_state s.
Proof. apply (cached_lines_val all_lines rs []). Qed.

(** X16: a negative [line] passes the test of line 208 and is read from
    the end of the cached lines, as Python indexes lists. *)
Theorem negative_line_counts_from_end all_lines mt acc (s : state W) z l :
  m_metadata mt !! py "line" = Some (PInt z) ->
  (- Z.of_nat (length all_lines) <= z < 0)%Z ->
  all_lines !! Z.to_nat (z + Z.of_nat (length all_lines)) = Some l ->
  cached_line all_lines mt acc s = (Val (acc ++ [PStr l]), s).
Proof.
  intros Hline Hz Hl. unfold cached_line, try_except, py_index. rewrite Hline.
  assert (H1 : (z <? Z.of_nat (length all_lines))%Z = true) by (apply Z.ltb_lt; lia).
  assert (H2 : (z <? 0)%Z = true) by (apply Z.ltb_lt; lia).
  assert (H3 : (0 <=? z + Z.of_nat (length all_lines))%Z = true) by (apply Z.leb_le; lia).
  assert (H4 : (z + Z.of_nat (length all_lines) <? Z.of_nat (length all_lines))%Z = true)
    by (apply Z.ltb_lt; lia).
  rewrite H1, H2, H3, H4. simpl. by rewrite Hl.
Qed.

(** X17: a [line] below minus the number of cached lines makes the lookup
    fail; the failure is caught, a warning is shown, and the match gives
    nothing, even when its metadata holds a [text]. *)
Theorem line_below_range_drops_match all_lines mt acc (s : state W) z :
  m_metadata mt !! py "line" = Some (PInt z) ->
  (z < - Z.of_nat (length all_lines))%Z ->
  cached_line all_lines mt acc s
  = (Val acc,
     Build_state (world s)
       (log s ++ [st_warning (py "Gagal mengambil konteks dari baris: list index out of range")])
       (session_state s) (file_read s)).
Proof.
  intros Hline Hz. unfold cached_line, try_except, py_index. rewrite Hline.
  assert (H1 : (z <? Z.of_nat (length all_lines))%Z = true) by (apply Z.ltb_lt; lia).
  assert (H2 : (z <? 0)%Z = true) by (apply Z.ltb_lt; lia).
  assert (H3 : (0 <=? z + Z.of_nat (length all_lines))%Z = false) by (apply Z.leb_gt; lia).
  rewrite H1, H2, H3. by mrun.
Qed.

Lemma strings_of_text_or_id (rs : list Match) :
  (forall mt z, mt ∈ rs -> m_metadata mt !! py "text" <> Some (PInt z)) ->
  strings_of (map text_or_id rs) = Some (map text_or_id_string rs).
Proof.
  induction rs as [|mt rs IH]; intros Hstr; simpl; [done|].
  rewrite IH by (intros mt' z Hin; apply Hstr; by right).
  unfold text_or_id, text_or_id_string.
  destruct (m_metadata mt !! py "text") as [[z|t]|] eqn:Ht; simpl; try done.
  destruct (Hstr mt z); [by left | done].
Qed.

(** X18: without the file in the cache, every match gives one line of the
    context, its [text] or else its id, in the order of the matches;
    nothing is called, shown or changed. This holds when the [text] values
    are strings. *)
Theorem uncached_context uploaded_file (rs : list Match) (s : state W) :
  cache_entry uploaded_file (session_state s) = None ->
  (forall mt z, mt ∈ rs -> m_metadata mt !! py "text" <> Some (PInt z)) ->
  reconstruct_context uploaded_file rs s
  = (Val (join [NL] (map text_or_id_string rs)), s).
Proof.
  intros Hcache Hstr. destruct rs as [|mt rs]; [done|].
  rewrite reconstruct_without_cache by done.
  unfold join_values. by rewrite strings_of_text_or_id.
Qed.

(** X19: an integer [text] in a match's metadata makes the join of line
    217 raise: without the file in the cache, the rebuilding of the
    context then raises a [TypeError]. *)
Theorem integer_text_raises uploaded_file (rs : list Match) (s : state W) mt z :
  cache_entry uploaded_file (session_state s) = None ->
  mt ∈ rs ->
  m_metadata mt !! py "text" = Some (PInt z) ->
  exists e, reconstruct_context uploaded_file rs s = (Raise (TypeError e), s).
Proof.
  intros Hcache Hin Hz.
  rewrite reconstruct_without_cache by (done || by intros ->; inversion Hin).
  unfold join_values.
  assert (Hnone : strings_of (map text_or_id rs) = None).
  { induction rs as [|mt' rs IH]; [by inversion Hin|]. simpl.
    apply elem_of_cons in Hin as [<- | Hin].
    - unfold text_or_id at 1. by rewrite Hz.
    - rewrite (IH Hin). by destruct (text_or_id mt'). }
  rewrite Hnone. by eexists.
Qed.

End Chat_more.

(** ** The gateways never raise *)

Section Gateways_more.
Context {W : Type} (env : Env W).

Lemma last_two {A} (l : list A) x y : last (l ++ [x; y]) = Some y.
Proof.
  change (l ++ [x; y]) with (l ++ [x] ++ [y]). by rewrite app_assoc, last_snoc.
Qed.

Lemma get_embedding_no_client text (s : state W) :
  get_embedding env text None s
  = (Val None,
     Build_state (world s)
       (log s ++ [embedding_error
                    (AttributeError (py "'NoneType' object has no attribute 'embeddings'"))])
       (session_state s) (file_read s)).
Proof. reflexivity. Qed.

(** X20: [get_embedding] never raises and leaves the session alone. It
    returns the embedding after the one call it makes, or [None] after
    showing the error of a failed call or of a missing client. *)
Theorem embedding_gateway_never_raises text cl (s : state W) :
  exists embedding s',
    get_embedding env text cl s = (Val embedding, s')
    /\ session_state s' = session_state s
    /\ (embedding = None -> exists e, last (log s') = Some (embedding_error e))
    /\ (forall v, embedding = Some v -> log s' = log s ++ [embedding_call text]).
Proof.
  destruct cl as [c|].
  - destruct (do_embeddings_create env text (world s)) as [[e|v] w] eqn:H.
    + erewrite get_embedding_raises by done. eexists _, _. split; [done|].
      simpl. repeat split; try done. intros _. exists e. apply last_two.
    + erewrite get_embedding_returns by done. eexists _, _. split; [done|].
      simpl. repeat split; try done.
  - rewrite get_embedding_no_client. eexists _, _. split; [done|].
    simpl. repeat split; try done. intros _. eexists. apply last_snoc.
Qed.

(** X21: [get_answer_from_openai] never raises and leaves the session
    alone. Either both calls returned and nothing else was shown, or the
    answer is the fixed apology and the run ends with the error shown. *)
Theorem completion_gateway_never_raises question context api_key (s : state W) :
  exists answer s',
    get_answer_from_openai env question context api_key s = (Val answer, s')
    /\ session_state s' = session_state s
    /\ (log s' = log s ++ [OpenAI_new api_key; completion_call question context]
        \/ answer = apology /\ exists e, last (log s') = Some (answer_error e)).
Proof.
  destruct (do_OpenAI env api_key (world s)) as [[e|[]] w1] eqn:H1.
  - destruct (get_answer_fails env question context api_key s e w1) as [calls ->];
      [by left|].
    eexists _, _. split; [done|]. simpl. split; [done|]. right. split; [done|].
    exists e. by rewrite !app_assoc, last_snoc.
  - destruct (do_chat_completions env (completion_messages question context) w1)
      as [[e|answer] w] eqn:H2.
    + destruct (get_answer_fails env question context api_key s e w) as [calls ->];
        [right; by exists w1|].
      eexists _, _. split; [done|]. simpl. split; [done|]. right. split; [done|].
      exists e. by rewrite !app_assoc, last_snoc.
    + erewrite get_answer_returns by done.
      eexists _, _. split; [done|]. simpl. split; [done|]. by left.
Qed.

End Gateways_more.

(** ** The history, the text cache and the page run *)

Section Session.
Context {W : Type} (env : Env W).

Lemma answer_turn_val cfg prompt context (s : state W) ms :
  messages (session_state s) = Some ms ->
  exists answer s',
    answer_turn env cfg prompt context s = (Val tt, s')
    /\ session_state s'
       = {| messages := Some (ms ++ [assistant_message answer]);
            text_cache := text_cache (session_state s) |}.
Proof.
  intros Hms. unfold answer_turn.
  set (s0 := snd ((if truthy context then ret tt
                   else emit (st_warning no_context_warning)) s)).
  assert (Hs0 : (if truthy context then ret tt
                 else emit (st_warning no_context_warning)) s = (Val tt, s0)
                /\ session_state s0 = session_state s).
  { unfold s0. by destruct (truthy context). }
  destruct Hs0 as [Hrun Hss]. erewrite bind_val by apply Hrun.
  destruct (get_answer_val env prompt context (openai_api_key cfg) s0)
    as (answer & s1 & Hans & Hss1 & _).
  erewrite bind_val by apply Hans.
  exists answer. mrun. rewrite Hss1, Hss, Hms. by eexists.
Qed.

Lemma chat_section_session cfg prompt uploaded_file index_name pcl ocl (s : state W) r s' :
  chat_section env cfg prompt uploaded_file index_name pcl ocl s = (r, s') ->
  exists added,
    session_state s'
    = {| messages := Some (default [] (messages (session_state s)) ++ added);
         text_cache := text_cache (session_state s) |}
    /\ (added = []
        \/ exists p, prompt = Some p
             /\ (added = [user_message p]
                 \/ exists answer, added = [user_message p; assistant_message answer])).
Proof.
  unfold chat_section. erewrite bind_val by apply show_history_run.
  destruct prompt as [[|c p]|].
  - intros [= <- <-]. exists []. simpl. rewrite app_nil_r. auto.
  - destruct (asked_eq (c :: p) s) as [Hrun Hasked].
    rewrite show_history_run in Hrun. simpl in Hrun.
    erewrite bind_val by apply Hrun.
    destruct (configured cfg).
    + unfold assistant_turn.
      pose proof (keeps_build_context env (c :: p) uploaded_file index_name pcl ocl
                    (asked (c :: p) s)) as Hkeep.
      unfold bind at 1.
      destruct (build_context env (c :: p) uploaded_file index_name pcl ocl
                  (asked (c :: p) s)) as [[context| |] s2]; simpl in Hkeep.
      * destruct (answer_turn_val cfg (c :: p) context s2
                    (default [] (messages (session_state s)) ++ [user_message (c :: p)]))
          as (answer & s3 & -> & Hss).
        { by rewrite Hkeep, Hasked. }
        intros [= <- <-].
        exists [user_message (c :: p); assistant_message answer].
        rewrite Hss, Hkeep, Hasked. simpl. rewrite <- app_assoc. eauto 10.
      * intros [= <- <-]. exists [user_message (c :: p)].
        rewrite Hkeep, Hasked. simpl. eauto 10.
      * intros [= <- <-]. exists [user_message (c :: p)].
        rewrite Hkeep, Hasked. simpl. eauto 10.
    + intros [= <- <-]. exists [user_message (c :: p)].
      rewrite Hasked. simpl. eauto 10.
  - intros [= <- <-]. exists []. simpl. rewrite app_nil_r. auto.
Qed.

(** X22: the chat handler only ever appends to the history and never
    touches the text cache: however the run ends, the history is the old
    one followed by nothing, by the user's turn, or by the user's turn and
    one assistant's turn. *)
Theorem history_only_grows cfg prompt uploaded_file index_name pcl ocl (s : state W) r s' :
  chat_section env cfg prompt uploaded_file index_name pcl ocl s = (r, s') ->
  exists added,
    messages (session_state s') = Some (default [] (messages (session_state s)) ++ added)
    /\ text_cache (session_state s') = text_cache (session_state s)
    /\ (added = []
        \/ exists p, prompt = Some p
             /\ (added = [user_message p]
                 \/ exists answer, added = [user_message p; assistant_message answer])).
Proof.
  intros (added & -> & Hadded)%chat_section_session. by exists added.
Qed.

Lemma cache_section_fresh (f : file) content (s : state W) :
  file_read s = false ->
  f_decoded f = inr content ->
  exists s',
    cache_section (Some f) s = (Val tt, s')
    /\ cache_entry (Some f) (session_state s') = Some content
    /\ (forall name, name <> f_name f ->
          default ∅ (text_cache (session_state s')) !! name
          = default ∅ (text_cache (session_state s)) !! name)
    /\ messages (session_state s') = messages (session_state s)
    /\ world s' = world s /\ log s' = log s.
Proof.
  intros Hs Hf. unfold cache_section.
  destruct s as [w l [ms [cache|]] fr]; simpl in Hs; subst fr; mrun;
    unfold read_decode; simpl; rewrite Hf; mrun; eexists; (split; [done|]); simpl;
    unfold cache_entry; simpl; rewrite lookup_insert_eq;
    (repeat split; try done); intros name Hne; by rewrite lookup_insert_ne.
Qed.

(** A file already read in this run is cached as the empty text: the
    second [read()] finds the stream at its end. *)
Lemma cache_section_at_end (f : file) (s : state W) r s' :
  file_read s = true ->
  cache_section (Some f) s = (r, s') ->
  r = Val tt /\ cache_entry (Some f) (session_state s') = Some [].
Proof.
  intros Hs. unfold cache_section.
  destruct s as [w l [ms [cache|]] fr]; simpl in Hs; subst fr; mrun;
    unfold read_decode; simpl; mrun; intros [= <- <-]; (split; [done|]); simpl;
    unfold cache_entry; simpl; by rewrite lookup_insert_eq.
Qed.

(** X23: the text cache stores the uploaded text under the file's name,
    leaves the other entries and the history as they were, and calls no
    service. *)
Theorem cache_section_stores (f : file) content (s : state W) :
  file_read s = false ->
  f_decoded f = inr content ->
  exists s',
    cache_section (Some f) s = (Val tt, s')
    /\ cache_entry (Some f) (session_state s') = Some content
    /\ (forall name, name <> f_name f ->
          default ∅ (text_cache (session_state s')) !! name
          = default ∅ (text_cache (session_state s)) !! name)
    /\ messages (session_state s') = messages (session_state s)
    /\ world s' = world s /\ log s' = log s.
Proof. apply cache_section_fresh. Qed.

End Session.

(** *** The uploaded file's stream *)

Section Stream.
Context {W : Type} (env : Env W).

Lemma file_ret {A} (a : A) : keeps_file (ret (W:=W) a).
Proof. by intros s. Qed.

Lemma file_raise {A} e : keeps_file (raise (W:=W) (A:=A) e).
Proof. by intros s. Qed.

Lemma file_emit ev : keeps_file (emit (W:=W) ev).
Proof. by intros s. Qed.

Lemma file_call {A} ev (op : W -> (exn + A) * W) : keeps_file (call ev op).
Proof. intros s. unfold call. by destruct (op (world s)). Qed.

Lemma file_call_total {A} ev (op : W -> A * W) : keeps_file (call_total ev op).
Proof. intros s. unfold call_total. by destruct (op (world s)). Qed.

Lemma file_get_session : keeps_file (get_session (W:=W)).
Proof. by intros s. Qed.

Lemma file_put_session ss : keeps_file (put_session (W:=W) ss).
Proof. by intros s. Qed.

Lemma file_bind {A B} (c : M W A) (k : A -> M W B) :
  keeps_file c -> (forall a, keeps_file (k a)) -> keeps_file (bind c k).
Proof.
  intros Hc Hk s. unfold bind. specialize (Hc s).
  destruct (c s) as [[a| |] s1]; simpl in *; [|done..].
  by rewrite Hk.
Qed.

Lemma file_try {A} (c : M W A) (h : exn -> M W A) :
  keeps_file c -> (forall e, keeps_file (h e)) -> keeps_file (try_except c h).
Proof.
  intros Hc Hh s. unfold try_except. specialize (Hc s).
  destruct (c s) as [[a|e|] s1]; simpl in *; [done| |done].
  by rewrite Hh.
Qed.

Lemma file_py_index {A} (l : list A) z : keeps_file (py_index (W:=W) l z).
Proof.
  intros s. unfold py_index.
  destruct (_ && _); [|done]. by destruct (l !! _).
Qed.

End Stream.

Create HintDb stream.

#[global] Hint Resolve file_ret file_raise file_emit file_call file_call_total
  file_get_session file_put_session file_py_index : stream.

(** Splits a computation along its binds, handlers and tests. *)
Ltac stream :=
  repeat first
    [ progress eauto with stream
    | apply file_bind; [|intros ?]
    | apply file_try; [|intros ?]
    | match goal with
      | |- keeps_file (if ?b then _ else _) => destruct b
      | |- keeps_file (match ?x with _ => _ end) => destruct x
      end ].

Section Page.
Context {W : Type} (env : Env W).

Lemma file_get_embedding text cl : keeps_file (get_embedding env text cl).
Proof. unfold get_embedding. stream. Qed.

Lemma file_wait_ready fuel index_name : keeps_file (wait_ready env fuel index_name).
Proof. induction fuel as [|fuel IH]; simpl; [done|]. stream. Qed.

Lemma file_embed_loop i texts mdl cl acc :
  keeps_file (embed_loop env i texts mdl cl acc).
Proof.
  revert i acc. induction texts as [|text rest IH]; intros i acc; simpl; [stream|].
  pose proof file_get_embedding. stream.
Qed.

Lemma file_upsert_to_pinecone fuel index_name texts mdl pcl ecl :
  keeps_file (upsert_to_pinecone env fuel index_name texts mdl pcl ecl).
Proof.
  unfold upsert_to_pinecone, provision_index, upsert_batch.
  pose proof file_wait_ready. pose proof file_embed_loop. stream.
Qed.

Lemma file_cached_lines all_lines (rs : list Match) acc :
  keeps_file (cached_lines (W:=W) all_lines rs acc).
Proof.
  revert acc. induction rs as [|mt rs IH]; intros acc; simpl; [stream|].
  apply file_bind; [unfold cached_line; stream | done].
Qed.

Lemma file_for_each {A} (l : list A) (body : A -> M W unit) :
  (forall a, keeps_file (body a)) -> keeps_file (for_each l body).
Proof. intros Hb. induction l as [|a l IH]; simpl; stream. Qed.

Lemma file_chat_section cfg prompt uploaded_file index_name pcl ocl :
  keeps_file (chat_section env cfg prompt uploaded_file index_name pcl ocl).
Proof.
  unfold chat_section, show_history, user_turn, assistant_turn, build_context,
    answer_turn, query_pinecone, reconstruct_context, join_values,
    get_answer_from_openai, append_message.
  pose proof file_get_embedding. pose proof file_cached_lines.
  assert (forall ms, keeps_file (for_each (W:=W) ms show_message)).
  { intros ms. apply file_for_each. intros m. unfold show_message. stream. }
  stream.
Qed.

(** Whenever the upload handler processes a file, it leaves the stream of
    that file at its end. *)
Lemma upload_reads_file fuel f index_name oc pc (s : state W) :
  index_name <> [] ->
  file_read (snd (upload_section env fuel (Some f) index_name true (Some oc) (Some pc) s))
  = true.
Proof.
  intros Hidx. unfold upload_section.
  destruct index_name as [|c0 index_name]; [done|]. simpl.
  unfold bind at 1, read_decode.
  destruct (file_read s) eqn:Hs.
  - match goal with |- file_read (snd (?c s)) = _ =>
      assert (Hk : keeps_file c) end.
    { pose proof file_wait_ready. pose proof file_embed_loop.
      unfold provision_index, upsert_batch. stream. }
    by rewrite Hk.
  - destruct (f_decoded f) as [e|content]; [done|]. cbv beta.
    match goal with |- file_read (snd (?c ?s0)) = _ =>
      assert (Hk : keeps_file c) end.
    { pose proof file_wait_ready. pose proof file_embed_loop.
      unfold provision_index, upsert_batch. stream. }
    by rewrite Hk.
Qed.

(** X24: in a run that processes an upload, the text cache ends up
    holding the empty text for the file: the upload handler has read the
    file to its end, so the [read()] of line 236 returns nothing. *)
Theorem upload_run_caches_empty_text fuel cfg f index_name pc oc (s : state W) s' :
  index_name <> [] ->
  page_run env fuel cfg (Some f) index_name true None (Some pc) (Some oc) s = (Val tt, s') ->
  cache_entry (Some f) (session_state s') = Some [].
Proof.
  intros Hidx Hrun. unfold page_run in Hrun.
  pose proof (upload_reads_file fuel f index_name oc pc s Hidx) as Hread.
  unfold bind at 1 in Hrun.
  destruct (upload_section env fuel (Some f) index_name true (Some oc) (Some pc) s)
    as [[[]| |] s1]; [|done..]. simpl in Hread.
  pose proof (file_chat_section cfg None (Some f) index_name (Some pc) (Some oc) s1)
    as Hchat.
  unfold bind at 1 in Hrun.
  destruct (chat_section env cfg None (Some f) index_name (Some pc) (Some oc) s1)
    as [[[]| |] s2]; [|done..]. simpl in Hchat.
  apply cache_section_at_end in Hrun; [by destruct Hrun | congruence].
Qed.

(** X25: in a run that processes no upload and ends normally, the text
    cache ends up holding the text of the uploaded file under its name,
    whatever the chat handler did. *)
Theorem question_run_caches_text fuel cfg f content index_name prompt pcl ocl
    (s : state W) s' :
  file_read s = false ->
  f_decoded f = inr content ->
  page_run env fuel cfg (Some f) index_name false prompt pcl ocl s = (Val tt, s') ->
  cache_entry (Some f) (session_state s') = Some content.
Proof.
  intros Hs Hf Hrun. unfold page_run, upload_section in Hrun.
  rewrite andb_false_r in Hrun. erewrite bind_val in Hrun by reflexivity.
  pose proof (file_chat_section cfg prompt (Some f) index_name pcl ocl s) as Hchat.
  unfold bind at 1 in Hrun.
  destruct (chat_section env cfg prompt (Some f) index_name pcl ocl s)
    as [[[]| |] s2]; [|done..]. simpl in Hchat.
  destruct (cache_section_fresh f content s2) as (s3 & Hc & Hentry & _);
    [congruence | done |].
  rewrite Hc in Hrun. by injection Hrun as <-.
Qed.

End Page.

(** ** The further properties on the scripted worlds *)

Lemma texts_are_trimmed_witness :
  py "banana" ∈ texts fruit_text /\ strip (py "banana") = py "banana".
Proof.
  assert (H : py "banana" ∈ texts fruit_text).
  { apply (bool_decide_unpack _). by vm_compute. }
  split; [exact H|].
  exact (proj1 (texts_are_trimmed fruit_text (py "banana") H)).
Defined.

Lemma every_chunk_is_embedded_witness :
  exists vs s',
    embed_loop (scripted picky) 0 three_texts three_metadata (Some a_client) [] fresh
    = (Val vs, s')
    /\ embedded_texts (log s') = embedded_texts (log fresh) ++ three_texts.
Proof.
  apply (every_chunk_is_embedded (scripted picky) 0 three_texts three_metadata
           a_client [] fresh).
  vm_compute. lia.
Defined.

Lemma batch_follows_chunks_witness :
  exists ks,
    sublist ks (seq 0 (length three_texts))
    /\ Forall2 (vector_of (scripted picky) three_metadata)
         [chunk_vector 0; chunk_vector 2] ks.
Proof.
  apply (batch_follows_chunks (scripted picky) 0 three_texts three_metadata
           (Some a_client) fresh [chunk_vector 0; chunk_vector 2]
           (snd (embed_loop (scripted picky) 0 three_texts three_metadata
                   (Some a_client) [] fresh))).
  by vm_compute.
Defined.

Lemma batch_ids_distinct_witness :
  NoDup (map v_id [chunk_vector 0; chunk_vector 2]).
Proof.
  apply (batch_ids_distinct (scripted picky) 0 three_texts three_metadata
           (Some a_client) fresh [chunk_vector 0; chunk_vector 2]
           (snd (embed_loop (scripted picky) 0 three_texts three_metadata
                   (Some a_client) [] fresh))).
  by vm_compute.
Defined.

Lemma true_means_uploaded_witness :
  exists vs before,
    vs <> []
    /\ log (snd (upsert_to_pinecone (scripted calm) 0 the_index three_texts
                   three_metadata (Some a_client) (Some a_client) fresh))
       = before ++ [index_upsert the_index vs; upsert_success the_index (length vs)].
Proof.
  apply (true_means_uploaded (scripted calm) 0 the_index three_texts three_metadata
           (Some a_client) (Some a_client) fresh).
  by vm_compute.
Defined.

Lemma poll_without_end_witness :
  fst (upsert_to_pinecone stalled 5 the_index three_texts three_metadata
         (Some a_client) (Some a_client) fresh) = OutOfFuel.
Proof.
  apply (poll_without_end stalled the_index three_texts three_metadata
           a_client (Some a_client) fresh [] tt tt).
  - reflexivity.
  - apply not_elem_of_nil.
  - reflexivity.
  - intros w. exists tt. by destruct w.
Defined.

Lemma blank_file_uploads_nothing_witness :
  fst (upload_section (scripted calm) 0 (Some blank_file) the_index true
         (Some a_client) (Some a_client) fresh) = Val tt
  /\ log (snd (upload_section (scripted calm) 0 (Some blank_file) the_index true
                 (Some a_client) (Some a_client) fresh))
     = [st_warning (py "File tidak berisi teks yang dapat diproses.")].
Proof.
  rewrite (blank_file_uploads_nothing (scripted calm) 0 blank_file
             (unlines [""; "  "; ""]) the_index a_client a_client fresh).
  - done.
  - reflexivity.
  - reflexivity.
  - apply (bool_decide_unpack _). by vm_compute.
  - by vm_compute.
Defined.

Lemma upload_returns_once_provisioned_witness :
  exists s',
    upload_section (scripted picky) 0 (Some fruit_file) the_index true
      (Some a_client) (Some a_client) fresh = (Val tt, s').
Proof.
  apply (upload_returns_once_provisioned (scripted picky) 0 fruit_file fruit_text
           the_index a_client a_client fresh
           (snd (provision_index (scripted picky) 0 the_index (set_file_read true fresh)))).
  - reflexivity.
  - reflexivity.
  - by vm_compute.
  - by vm_compute.
Defined.

Lemma query_returns_matches_or_nothing_witness :
  fst (query_pinecone (scripted stocked) the_index (py "Halo") 3
         (Some a_client) (Some a_client) fresh) = Val [banana_match]
  /\ fst (query_pinecone (scripted jammed) the_index (py "Halo") 3
            (Some a_client) (Some a_client) fresh) = Val [].
Proof.
  split.
  - refine (f_equal fst
              (query_returns_matches_or_nothing (scripted stocked) the_index (py "Halo") 3
                 a_client a_client fresh [the_index] tt tt [Float 1] tt
                 (inr [banana_match]) tt _ _ _ _ _ _));
      try reflexivity; [apply (bool_decide_unpack _); by vm_compute | done].
  - refine (f_equal fst
              (query_returns_matches_or_nothing (scripted jammed) the_index (py "Halo") 3
                 a_client a_client fresh [the_index] tt tt [Float 1] tt
                 (inl (ServiceError (py "busy"))) tt _ _ _ _ _ _));
      try reflexivity; [apply (bool_decide_unpack _); by vm_compute | done].
Defined.

Lemma listing_failure_leaves_question_unanswered_witness :
  fst (chat_section offline full_config (Some (py "Halo")) None the_index
         (Some a_client) (Some a_client) fresh)
  = Raise (ServiceError (py "unreachable"))
  /\ messages (session_state (snd
        (chat_section offline full_config (Some (py "Halo")) None the_index
           (Some a_client) (Some a_client) fresh)))
     = Some [user_message (py "Halo")].
Proof.
  rewrite (listing_failure_leaves_question_unanswered offline full_config (py "Halo")
             None the_index a_client (Some a_client) fresh
             (ServiceError (py "unreachable")) tt).
  - done.
  - by vm_compute.
  - reflexivity.
  - reflexivity.
Defined.

Lemma negative_line_counts_from_end_witness :
  cached_line (split NL fruit_text) last_line_match [] fruit_cached
  = (Val [PStr (py "banana")], fruit_cached).
Proof.
  apply (negative_line_counts_from_end (split NL fruit_text) last_line_match []
           fruit_cached (-1) (py "banana")).
  - by vm_compute.
  - vm_compute. split; [discriminate | reflexivity].
  - by vm_compute.
Defined.

Lemma line_below_range_drops_match_witness :
  m_metadata far_match !! py "text" = Some (PStr (py "pear"))
  /\ fst (cached_line (split NL fruit_text) far_match [] fruit_cached) = Val [].
Proof.
  split; [by vm_compute|].
  rewrite (line_below_range_drops_match (split NL fruit_text) far_match []
             fruit_cached (-9)).
  - done.
  - by vm_compute.
  - by vm_compute.
Defined.

Lemma uncached_context_witness :
  reconstruct_context None [stale_match; texted_match] fresh
  = (Val (m_id stale_match ++ [NL] ++ py "pear"), fresh).
Proof.
  apply (uncached_context None [stale_match; texted_match] fresh).
  - reflexivity.
  - intros mt z Hin. apply elem_of_cons in Hin as [-> | Hin]; [by vm_compute|].
    apply list_elem_of_singleton in Hin as ->. by vm_compute.
Defined.

Lemma integer_text_raises_witness :
  exists e, reconstruct_context None [numbered_match] fresh = (Raise (TypeError e), fresh).
Proof.
  apply (integer_text_raises None [numbered_match] fresh numbered_match 5).
  - reflexivity.
  - by left.
  - by vm_compute.
Defined.

Lemma history_only_grows_witness :
  exists added,
    messages (session_state (snd
      (chat_section (scripted calm) full_config (Some (py "Halo")) None the_index
         (Some a_client) (Some a_client) fresh)))
    = Some (default [] (messages (session_state fresh)) ++ added)
    /\ text_cache (session_state (snd
          (chat_section (scripted calm) full_config (Some (py "Halo")) None the_index
             (Some a_client) (Some a_client) fresh)))
       = text_cache (session_state fresh)
    /\ (added = []
        \/ exists p, Some (py "Halo") = Some p
             /\ (added = [user_message p]
                 \/ exists answer, added = [user_message p; assistant_message answer])).
Proof.
  apply (history_only_grows (scripted calm) full_config (Some (py "Halo")) None the_index
           (Some a_client) (Some a_client) fresh
           (fst (chat_section (scripted calm) full_config (Some (py "Halo")) None the_index
                   (Some a_client) (Some a_client) fresh))).
  by vm_compute.
Defined.

Lemma cache_section_stores_witness :
  exists s',
    cache_section (Some fruit_file) fresh = (Val tt, s')
    /\ cache_entry (Some fruit_file) (session_state s') = Some fruit_text.
Proof.
  destruct (cache_section_stores fruit_file fruit_text fresh)
    as (s' & Hrun & Hentry & _); [reflexivity | reflexivity |].
  by exists s'.
Defined.

Lemma upload_run_caches_empty_text_witness :
  cache_entry (Some fruit_file)
    (session_state (snd
       (page_run (scripted calm) 0 full_config (Some fruit_file) the_index true None
          (Some a_client) (Some a_client) fresh)))
  = Some [].
Proof.
  apply (upload_run_caches_empty_text (scripted calm) 0 full_config fruit_file the_index
           a_client a_client fresh).
  - by vm_compute.
  - by vm_compute.
Defined.

Lemma question_run_caches_text_witness :
  cache_entry (Some fruit_file)
    (session_state (snd
       (page_run (scripted calm) 0 full_config (Some fruit_file) the_index false
          (Some (py "Halo")) (Some a_client) (Some a_client) fresh)))
  = Some fruit_text.
Proof.
  apply (question_run_caches_text (scripted calm) 0 full_config fruit_file fruit_text
           the_index (Some (py "Halo")) (Some a_client) (Some a_client) fresh).
  - reflexivity.
  - reflexivity.
  - by vm_compute.
Defined.

(** ** The batch, chunk by chunk *)

Section Batch.
Context {W : Type} (env : Env W).

(** C9: the batch holds the chunks whose embedding was obtained and no
    other: a chunk whose embedding call raises is skipped, and every chunk
    after it is still sent to the embedding endpoint and, when its call
    returns, put in the batch with its ordinal, its embedding and its
    metadata. The loop never raises. *)
Theorem failed_embedding_skipped i texts mdl c acc (s : state W) :
  i + length texts <= length mdl ->
  exists vs s',
    embed_loop env i texts mdl (Some c) acc s = (Val (acc ++ vs), s')
    /\ Forall2 (batched env mdl) vs (accepted env i texts (world s))
    /\ embedded_texts (log s') = embedded_texts (log s) ++ texts.
Proof.
  revert i acc s. induction texts as [|text rest IH]; intros i acc s Hlen;
    cbn [embed_loop accepted length] in *.
  - exists [], s. rewrite !app_nil_r. repeat split. constructor.
  - destruct (do_embeddings_create env text (world s)) as [[e|[|x v]] w] eqn:Hemb.
    + erewrite bind_val by (by apply get_embedding_raises). cbn [embedding_ok].
      erewrite bind_val by reflexivity.
      edestruct (IH (S i) acc) as (vs & s' & -> & Hall & Hlog); [lia|].
      exists vs, s'. split; [done|]. split; [exact Hall|].
      rewrite Hlog. simpl. rewrite embedded_texts_app. simpl.
      by rewrite <- (app_assoc _ [text] rest).
    + erewrite bind_val by (by apply get_embedding_returns). cbn [embedding_ok truthy].
      erewrite bind_val by reflexivity.
      edestruct (IH (S i) acc) as (vs & s' & -> & Hall & Hlog); [lia|].
      exists vs, s'. split; [done|]. split; [exact Hall|].
      rewrite Hlog. simpl. rewrite embedded_texts_app. simpl.
      by rewrite <- (app_assoc _ [text] rest).
    + erewrite bind_val by (by apply get_embedding_returns). cbn [embedding_ok truthy].
      destruct (lookup_lt_is_Some_2 mdl i) as [md Hmd]; [lia|].
      set (s1 := Build_state w (log s ++ [embedding_call text])
                   (session_state s) (file_read s)).
      destruct (do_time env w) as [t w2] eqn:Ht.
      erewrite bind_val by (eapply chunk_appended; [exact Ht | exact Hmd]).
      edestruct (IH (S i)) as (vs & s' & -> & Hall & Hlog); [lia|].
      eexists (_ :: vs), s'. split; [by rewrite <- app_assoc|]. split.
      * constructor; [|exact Hall]. repeat split; [exact Hmd | by exists t].
      * rewrite Hlog. simpl. rewrite !embedded_texts_app. simpl.
        by rewrite app_nil_r, <- (app_assoc _ [text] rest).
Qed.

End Batch.

(** ** A question whose embedding fails *)

Section Unembedded.
Context {W : Type} (env : Env W).

Lemma get_answer_client_fails question context api_key (s : state W) e w :
  do_OpenAI env api_key (world s) = (inl e, w) ->
  get_answer_from_openai env question context api_key s
  = (Val apology,
     Build_state w (log s ++ [OpenAI_new api_key; answer_error e])
       (session_state s) (file_read s)).
Proof.
  intros H. unfold get_answer_from_openai, try_except.
  erewrite bind_raise by (by apply call_raises). mrun.
  by rewrite <- !app_assoc.
Qed.

Lemma get_answer_request_fails question context api_key (s : state W) w1 e w :
  do_OpenAI env api_key (world s) = (inr tt, w1) ->
  do_chat_completions env (completion_messages question context) w1 = (inl e, w) ->
  get_answer_from_openai env question context api_key s
  = (Val apology,
     Build_state w
       (log s ++ [OpenAI_new api_key; completion_call question context; answer_error e])
       (session_state s) (file_read s)).
Proof.
  intros H1 H2. unfold get_answer_from_openai, try_except.
  erewrite bind_val by (by apply call_ok).
  erewrite call_raises by done. mrun.
  by rewrite <- !app_assoc.
Qed.

Lemma build_context_unembedded prompt uploaded_file index_name pc ocl
    (s : state W) names w1 w2 e w3 :
  do_list_indexes env (world s) = (inr names, w1) ->
  index_name ∈ names ->
  do_Index env index_name w1 = (inr tt, w2) ->
  embedding_fails env ocl prompt w2 e w3 ->
  build_context env prompt uploaded_file index_name (Some pc) ocl s
  = (Val [],
     Build_state w3
       (log s ++ [st_chat_message (py "assistant"); list_indexes; Index_handle index_name]
          ++ failed_embedding_events ocl prompt e)
       (session_state s) (file_read s)).
Proof.
  intros Hlist Hin Hidx Hemb. unfold build_context, query_pinecone.
  erewrite bind_val by reflexivity.
  destruct ocl as [oc|]; simpl in Hemb.
  - erewrite bind_val; cycle 1.
    { erewrite bind_val by (by apply call_ok).
      rewrite bool_decide_eq_true_2 by done.
      erewrite bind_val by (by apply call_ok).
      erewrite bind_val by (by apply get_embedding_raises). reflexivity. }
    simpl. unfold ret. by rewrite <- !app_assoc.
  - destruct Hemb as [-> ->].
    erewrite bind_val; cycle 1.
    { erewrite bind_val by (by apply call_ok).
      rewrite bool_decide_eq_true_2 by done.
      erewrite bind_val by (by apply call_ok).
      erewrite bind_val by apply get_embedding_no_client. reflexivity. }
    simpl. unfold ret. by rewrite <- !app_assoc.
Qed.

(** The handler's turn once the gateway has answered in [s4]. *)
Lemma answer_recorded cfg prompt (s3 : state W) ms answer s4 :
  get_answer_from_openai env prompt [] (openai_api_key cfg) s3 = (Val answer, s4) ->
  session_state s4 = session_state s3 ->
  messages (session_state s3) = Some ms ->
  (answer <- get_answer_from_openai env prompt [] (openai_api_key cfg) ;;
   emit (st_markdown answer) >>
   append_message {| role := py "assistant"; content := answer |}) s3
  = (Val tt,
     Build_state (world s4) (log s4 ++ [st_markdown answer])
       {| messages := Some (ms ++ [assistant_message answer]);
          text_cache := text_cache (session_state s3) |}
       (file_read s4)).
Proof.
  intros Hans Hss Hms. erewrite bind_val by apply Hans. mrun.
  by rewrite Hss, Hms.
Qed.

(** C4, as the code has it: when the embedding of the question fails (the
    call raises, or there is no embedding client), the error is shown, no
    match is found, the advisory about the missing context is shown, and
    the completion gateway is still called, with an empty context; the
    text the gateway returns is then shown and recorded as the assistant's
    turn. When the OpenAI client can be built, the completion request
    itself is sent. *)
Theorem embedding_failure_still_answers cfg prompt uploaded_file index_name pc ocl
    (s : state W) names w1 w2 e w3 :
  prompt <> [] ->
  configured cfg = true ->
  do_list_indexes env (world s) = (inr names, w1) ->
  index_name ∈ names ->
  do_Index env index_name w1 = (inr tt, w2) ->
  embedding_fails env ocl prompt w2 e w3 ->
  let s3 :=
    Build_state w3
      (log (asked prompt s)
         ++ [st_chat_message (py "assistant"); list_indexes; Index_handle index_name]
         ++ failed_embedding_events ocl prompt e
         ++ [st_warning no_context_warning])
      (session_state (asked prompt s)) (file_read s) in
  exists answer s4,
    get_answer_from_openai env prompt [] (openai_api_key cfg) s3 = (Val answer, s4)
    /\ (exists calls, log s4 = log s3 ++ OpenAI_new (openai_api_key cfg) :: calls)
    /\ (forall w4, do_OpenAI env (openai_api_key cfg) w3 = (inr tt, w4) ->
          exists calls,
            log s4 = log s3 ++ [OpenAI_new (openai_api_key cfg);
                                completion_call prompt []] ++ calls)
    /\ chat_section env cfg (Some prompt) uploaded_file index_name (Some pc) ocl s
       = (Val tt,
          Build_state (world s4) (log s4 ++ [st_markdown answer])
            {| messages := Some (default [] (messages (session_state s))
                                   ++ [user_message prompt; assistant_message answer]);
               text_cache := text_cache (session_state s) |}
            (file_read s4)).
Proof.
  intros Hp Hcfg Hlist Hin Hidx Hemb s3.
  destruct (asked_eq prompt s) as [_ Hasked].
  assert (Hchat : forall answer s4,
    get_answer_from_openai env prompt [] (openai_api_key cfg) s3 = (Val answer, s4) ->
    session_state s4 = session_state s3 ->
    chat_section env cfg (Some prompt) uploaded_file index_name (Some pc) ocl s
    = (Val tt,
       Build_state (world s4) (log s4 ++ [st_markdown answer])
         {| messages := Some (default [] (messages (session_state s))
                                ++ [user_message prompt; assistant_message answer]);
            text_cache := text_cache (session_state s) |}
         (file_read s4))).
  { intros answer s4 Hans Hss.
    rewrite chat_section_configured by done. unfold assistant_turn.
    erewrite bind_val; cycle 1.
    { eapply build_context_unembedded; try done. by rewrite Hasked. }
    unfold answer_turn. cbn [truthy]. erewrite bind_val by reflexivity.
    assert (Hs3 : add_log (st_warning no_context_warning)
              (Build_state w3
                 (log (asked prompt s)
                    ++ [st_chat_message (py "assistant"); list_indexes;
                        Index_handle index_name]
                    ++ failed_embedding_events ocl prompt e)
                 (session_state (asked prompt s)) (file_read (asked prompt s))) = s3).
    { unfold s3, add_log. simpl. rewrite Hasked. simpl. by rewrite <- !app_assoc. }
    rewrite Hs3.
    erewrite (answer_recorded cfg prompt s3
                (default [] (messages (session_state s)) ++ [user_message prompt]))
      by (done || by (unfold s3; rewrite Hasked)).
    unfold s3. rewrite Hasked. simpl. by rewrite <- app_assoc. }
  destruct (do_OpenAI env (openai_api_key cfg) w3) as [[e1|[]] w4] eqn:Hnew.
  - set (s4 := Build_state w4
                 (log s3 ++ [OpenAI_new (openai_api_key cfg); answer_error e1])
                 (session_state s3) (file_read s3)).
    assert (Hans : get_answer_from_openai env prompt [] (openai_api_key cfg) s3
                   = (Val apology, s4)).
    { apply get_answer_client_fails. exact Hnew. }
    exists apology, s4. split; [exact Hans|].
    split; [by eexists|]. split; [done|].
    exact (Hchat apology s4 Hans eq_refl).
  - destruct (do_chat_completions env (completion_messages prompt []) w4)
      as [[e2|answer] w5] eqn:Hcompl.
    + set (s4 := Build_state w5
                   (log s3 ++ [OpenAI_new (openai_api_key cfg);
                               completion_call prompt []; answer_error e2])
                   (session_state s3) (file_read s3)).
      assert (Hans : get_answer_from_openai env prompt [] (openai_api_key cfg) s3
                     = (Val apology, s4)).
      { eapply get_answer_request_fails; [exact Hnew | exact Hcompl]. }
      exists apology, s4. split; [exact Hans|].
      split; [by eexists|]. split.
      { intros w4' _. by exists [answer_error e2]. }
      exact (Hchat apology s4 Hans eq_refl).
    + set (s4 := Build_state w5
                   (log s3 ++ [OpenAI_new (openai_api_key cfg);
                               completion_call prompt []])
                   (session_state s3) (file_read s3)).
      assert (Hans : get_answer_from_openai env prompt [] (openai_api_key cfg) s3
                     = (Val answer, s4)).
      { eapply get_answer_returns; [exact Hnew | exact Hcompl]. }
      exists answer, s4. split; [exact Hans|].
      split; [by eexists|]. split.
      { intros w4' _. by exists []. }
      exact (Hchat answer s4 Hans eq_refl).
Qed.

End Unembedded.

(** ** The readiness poll *)

Section Poll.
Context {W : Type} (env : Env W).

Lemma wait_ready_ends n fuel index_name (s : state W) w w' :
  still_warming env index_name n (world s) = Some w ->
  do_describe_index env index_name w = (inr true, w') ->
  n < fuel ->
  wait_ready env fuel index_name s
  = (Val tt,
     Build_state w' (log s ++ poll_events index_name n) (session_state s) (file_read s)).
Proof.
  revert fuel s. induction n as [|n IH]; intros [|fuel] s Hwarm Hready Hlt;
    try lia; cbn [still_warming wait_ready] in *.
  - injection Hwarm as <-.
    erewrite bind_val by (by apply call_ok). done.
  - destruct (do_describe_index env index_name (world s)) as [[e|[|]] w1] eqn:Hd;
      try done.
    erewrite bind_val by (by apply call_ok). cbv beta iota.
    erewrite bind_val by reflexivity.
    erewrite IH; [|exact Hwarm|exact Hready|lia].
    unfold poll_events. simpl. by rewrite <- !app_assoc.
Qed.

(** X9: when the index is not listed, it is created and polled until it
    reports ready, with a sleep of one second after every look that found
    it not ready; the handle is taken after that. An index that is ready
    at the [n+1]-th look costs [n] sleeps. *)
Theorem poll_ends_when_ready fuel index_name (s : state W) names w1 w2 n w3 w4 w5 :
  do_list_indexes env (world s) = (inr names, w1) ->
  index_name ∉ names ->
  do_create_index env index_name w1 = (inr tt, w2) ->
  still_warming env index_name n w2 = Some w3 ->
  do_describe_index env index_name w3 = (inr true, w4) ->
  do_Index env index_name w4 = (inr tt, w5) ->
  n < fuel ->
  provision_index env fuel index_name s
  = (Val tt,
     Build_state w5
       (log s
          ++ [list_indexes;
              st_info (py "Membuat indeks Pinecone '" ++ index_name ++ py "'...");
              create_index index_name 1536 (py "cosine") (py "aws") (py "us-west-2")]
          ++ poll_events index_name n
          ++ [Index_handle index_name])
       (session_state s) (file_read s)).
Proof.
  intros Hlist Hnot Hcreate Hwarm Hready Hidx Hlt. unfold provision_index.
  erewrite bind_val by (by apply call_ok). cbv beta.
  rewrite bool_decide_eq_false_2 by done.
  erewrite bind_val; cycle 1.
  { erewrite bind_val by reflexivity.
    erewrite bind_val by (by apply call_ok).
    eapply wait_ready_ends; [exact Hwarm | exact Hready | exact Hlt]. }
  erewrite call_ok by exact Hidx.
  unfold set_world, add_log. simpl. by rewrite <- !app_assoc.
Qed.

End Poll.

Lemma poll_ends_when_ready_witness :
  still_warming warming the_index 2 0 = Some 2
  /\ provision_index warming 5 the_index cold
     = (Val tt,
        Build_state 2
          [list_indexes;
           st_info (py "Membuat indeks Pinecone 'my-chatbot-data'...");
           create_index the_index 1536 (py "cosine") (py "aws") (py "us-west-2");
           describe_index the_index; time_sleep 1;
           describe_index the_index; time_sleep 1;
           describe_index the_index;
           Index_handle the_index]
          (session_state cold) false).
Proof.
  split; [reflexivity|].
  apply (poll_ends_when_ready warming 5 the_index cold [] 0 0 2 2 2 2).
  - reflexivity.
  - apply not_elem_of_nil.
  - reflexivity.
  - reflexivity.
  - reflexivity.
  - reflexivity.
  - lia.
Defined.

Lemma embedding_failure_still_answers_witness :
  embedding_fails (scripted deaf) (Some a_client) (py "Halo") tt
    (ServiceError (py "timeout")) tt
  /\ chat_section (scripted deaf) full_config (Some (py "Halo")) None the_index
       (Some a_client) (Some a_client) fresh
     = (Val tt,
        Build_state tt
          [st_chat_message (py "user"); st_markdown (py "Halo");
           st_chat_message (py "assistant");
           list_indexes; Index_handle the_index;
           embedding_call (py "Halo"); embedding_error (ServiceError (py "timeout"));
           st_warning no_context_warning;
           OpenAI_new (py "sk-1"); completion_call (py "Halo") [];
           st_markdown (py "Jawaban.")]
          {| messages := Some [user_message (py "Halo"); assistant_message (py "Jawaban.")];
             text_cache := None |}
          false).
Proof.
  split; [reflexivity|].
  destruct (embedding_failure_still_answers (scripted deaf) full_config (py "Halo")
              None the_index a_client (Some a_client) fresh
              [the_index] tt tt (ServiceError (py "timeout")) tt)
    as (answer & s4 & Hans & _ & _ & Hrun).
  - by vm_compute.
  - reflexivity.
  - reflexivity.
  - apply (bool_decide_unpack _). by vm_compute.
  - reflexivity.
  - reflexivity.
  - rewrite Hrun. vm_compute in Hans. injection Hans as <- <-. reflexivity.
Defined.

Lemma failed_embedding_skipped_witness :
  accepted (scripted picky) 0 five_texts tt
  = [(0, [Float 1]); (2, [Float 1]); (3, [Float 1]); (4, [Float 1])]
  /\ fst (embed_loop (scripted picky) 0 five_texts five_metadata (Some a_client) [] fresh)
     = Val [chunk_vector 0; chunk_vector 2; chunk_vector 3; chunk_vector 4]
  /\ exists vs s',
       embed_loop (scripted picky) 0 five_texts five_metadata (Some a_client) [] fresh
       = (Val ([] ++ vs), s')
       /\ Forall2 (batched (scripted picky) five_metadata) vs
            (accepted (scripted picky) 0 five_texts (world fresh))
       /\ embedded_texts (log s') = embedded_texts (log fresh) ++ five_texts.
Proof.
  split; [by vm_compute|]. split; [by vm_compute|].
  apply (failed_embedding_skipped (scripted picky) 0 five_texts five_metadata
           a_client [] fresh).
  vm_compute. lia.
Defined.
